(** * Octowire host library: protocol engine and GPIO driver

    A shallow embedding of [octowire/octowire.py] (class [Octowire]) and
    [octowire/gpio.py] (class [GPIO]).  Python methods become functions in a
    state-and-exception monad over the object's attributes; the pyserial
    port the library talks to is an interface ([Transport]) whose
    behaviour is left to the device on the other end of the line. *)

From Stdlib Require Import ZArith List Bool String Ascii Lia.
From Stdlib.Init Require Import Byte.
From Stdlib.Strings Require Byte.
Import ListNotations.
Open Scope string_scope.
Open Scope list_scope.
Open Scope Z_scope.

(** ** Python values used by the library *)

(** [bytes] objects. *)
Definition bytes := list byte.

Definition bytes_eq_dec : forall a b : bytes, {a = b} + {a <> b} :=
  list_eq_dec Byte.byte_eq_dec.

Definition bytes_eqb (a b : bytes) : bool :=
  if bytes_eq_dec a b then true else false.

(** [not b] for a bytes object: true exactly on the empty one. *)
Definition bytes_falsy (b : bytes) : bool :=
  match b with [] => true | _ :: _ => false end.

Definition Z_of_byte (b : byte) : Z := Z.of_N (Byte.to_N b).

Definition byte_of_Z (n : Z) : byte :=
  match Byte.of_N (Z.to_N (n mod 256)) with
  | Some b => b
  | None => x00
  end.

(** [int.from_bytes(b, byteorder='little')]. *)
Fixpoint from_bytes_little (b : bytes) : Z :=
  match b with
  | [] => 0
  | x :: r => Z_of_byte x + 256 * from_bytes_little r
  end.

(** The [n] low bytes of [v], least significant first. *)
Fixpoint to_bytes_little (n : nat) (v : Z) : bytes :=
  match n with
  | O => []
  | S n' => byte_of_Z v :: to_bytes_little n' (v / 256)
  end.

(** [struct.pack("<H", v)] and [struct.pack("<L", v)] for [v] in range. *)
Definition struct_pack_H (v : Z) : bytes := to_bytes_little 2 v.
Definition struct_pack_L (v : Z) : bytes := to_bytes_little 4 v.

(** Python exceptions, by class; the library itself raises plain
    [Exception] and [ValueError], the others come from the built-ins it
    calls. *)
Inductive exn : Type :=
| Exception (msg : string)
| ValueError (msg : string)
| TypeError (msg : string)
| AttributeError (attr : string)
| StructError (msg : string)
| UnicodeDecodeError.

(** What a call does: return a value, raise, or (in this model only) use
    up the fuel given to a [while] loop. *)
Inductive Result (A : Type) : Type :=
| Ok (a : A)
| Raise (e : exn)
| OutOfFuel.
Arguments Ok {A} a.
Arguments Raise {A} e.
Arguments OutOfFuel {A}.

(** [struct.unpack("<L", b)[0]]: [struct.error] unless [b] has 4 bytes. *)
Definition struct_unpack_L (b : bytes) : Result Z :=
  if (List.length b =? 4)%nat then Ok (from_bytes_little b)
  else Raise (StructError "unpack requires a buffer of 4 bytes").

(** ["...{}...".format(x)] for an argument that is a string or [None]. *)
Definition fmt (x : option string) : string :=
  match x with
  | Some s => s
  | None => "None"
  end.

(** [bytes([v])]: one byte for an int in [range(256)], an error otherwise
    ([None] is not an integer). *)
Definition bytes_of_int_list1 (v : option Z) : Result bytes :=
  match v with
  | None => Raise (TypeError "'NoneType' object cannot be interpreted as an integer")
  | Some n =>
      if (0 <=? n) && (n <? 256) then Ok [byte_of_Z n]
      else Raise (ValueError "bytes must be in range(0, 256)")
  end.

(** A [str] as its code points. *)
Definition str := list N.

Definition str_of_string (s : string) : str :=
  map (fun c => N_of_ascii c) (list_ascii_of_string s).

Fixpoint starts_with (p s : str) : bool :=
  match p, s with
  | [], _ => true
  | _ :: _, [] => false
  | a :: p', b :: s' => N.eqb a b && starts_with p' s'
  end.

(** [p in s] for two [str]. *)
Fixpoint str_contains (p s : str) : bool :=
  starts_with p s ||
  match s with
  | [] => false
  | _ :: s' => str_contains p s'
  end.

(** [b.decode()]: strict UTF-8. *)
Definition is_cont (b : byte) : bool :=
  let n := Byte.to_N b in (128 <=? n)%N && (n <=? 191)%N.

Definition cont_bits (b : byte) : N := (Byte.to_N b - 128)%N.

Fixpoint utf8_decode (b : bytes) : option str :=
  match b with
  | [] => Some []
  | b0 :: r0 =>
      let n0 := Byte.to_N b0 in
      if (n0 <? 128)%N then option_map (cons n0) (utf8_decode r0)
      else
        match r0 with
        | [] => None
        | b1 :: r1 =>
            let n1 := Byte.to_N b1 in
            if negb (is_cont b1) then None
            else if (194 <=? n0)%N && (n0 <=? 223)%N then
              option_map (cons ((n0 - 192) * 64 + cont_bits b1)%N) (utf8_decode r1)
            else
              match r1 with
              | [] => None
              | b2 :: r2 =>
                  if negb (is_cont b2) then None
                  else if (224 <=? n0)%N && (n0 <=? 239)%N then
                    if ((n0 =? 224)%N && (n1 <? 160)%N)
                       || ((n0 =? 237)%N && (159 <? n1)%N)
                    then None
                    else option_map
                           (cons (((n0 - 224) * 64 + cont_bits b1) * 64 + cont_bits b2)%N)
                           (utf8_decode r2)
                  else
                    match r2 with
                    | [] => None
                    | b3 :: r3 =>
                        if negb (is_cont b3) then None
                        else if (240 <=? n0)%N && (n0 <=? 244)%N then
                          if ((n0 =? 240)%N && (n1 <? 144)%N)
                             || ((n0 =? 244)%N && (143 <? n1)%N)
                          then None
                          else option_map
                                 (cons ((((n0 - 240) * 64 + cont_bits b1) * 64
                                         + cont_bits b2) * 64 + cont_bits b3)%N)
                                 (utf8_decode r3)
                        else None
                    end
              end
        end
  end.

Definition bytes_decode (b : bytes) : Result str :=
  match utf8_decode b with
  | Some s => Ok s
  | None => Raise UnicodeDecodeError
  end.

(** [p in v] where [v] is a [str] or [None]: membership in [None] is a
    [TypeError]. *)
Definition py_in_str (p : str) (v : option str) : Result bool :=
  match v with
  | Some s => Ok (str_contains p s)
  | None => Raise (TypeError "argument of type 'NoneType' is not iterable")
  end.

(** ** The state-and-exception monad *)

(** A method on an object whose attributes are a value of type [St]: it
    returns or raises, and leaves the object in a new state either way. *)
Definition M (St A : Type) : Type := St -> Result A * St.

Definition ret {St A : Type} (a : A) : M St A := fun s => (Ok a, s).

Definition raise {St A : Type} (e : exn) : M St A := fun s => (Raise e, s).

Definition bind {St A B : Type} (m : M St A) (k : A -> M St B) : M St B :=
  fun s =>
    match m s with
    | (Ok a, s') => k a s'
    | (Raise e, s') => (Raise e, s')
    | (OutOfFuel, s') => (OutOfFuel, s')
    end.

Definition lift_result {St A : Type} (r : Result A) : M St A :=
  fun s => (r, s).

Notation "x <- m ;; k" := (bind m (fun x => k))
  (at level 61, m at next level, right associativity).
Notation "m ;;; k" := (bind m (fun _ => k))
  (at level 61, right associativity).

(** ** The serial port *)

(** What the library asks of the line behind a [serial.Serial] object:
    [write], [read(size)] under the port's current timeout, the
    [in_waiting] count, and the passing of time ([time.sleep], in
    milliseconds), during which the device may answer. *)
Class Transport (D : Type) : Type := {
  t_write : bytes -> D -> D;
  t_read : option Z -> Z -> D -> bytes * D;
  t_in_waiting : D -> Z;
  t_sleep : Z -> D -> D
}.

(** pyserial's contract for [read(size)]: at most [size] bytes. *)
Definition read_bounded {D : Type} `{Transport D} : Prop :=
  forall (to : option Z) (n : Z) (d : D),
    (List.length (fst (t_read to n d)) <= Z.to_nat n)%nat.

(** The calls made on the port, in order. *)
Inductive Event : Type :=
| EvWrite (data : bytes)
| EvRead (size : Z) (got : bytes).

Definition is_write (e : Event) : bool :=
  match e with EvWrite _ => true | EvRead _ _ => false end.

Definition writes (tr : list Event) : list Event := filter is_write tr.

Fixpoint written (tr : list Event) : bytes :=
  match tr with
  | [] => []
  | EvWrite d :: r => d ++ written r
  | EvRead _ _ :: r => written r
  end.

Section Engine.

Context {D : Type} `{TD : Transport D}.

(** A [serial.Serial] object: the line, and the two attributes the library
    reads or sets. *)
Record Serial : Type := mkSerial {
  dev : D;
  is_open : bool;
  timeout : option Z
}.

(** The [serial_instance] argument: a [serial.Serial], or an object of
    another type (its type's name kept for the log message), which has
    none of the attributes the library uses. *)
Inductive handle : Type :=
| SerialPort (s : Serial)
| NotSerial (type_name : string).

(** An [Octowire] object.  [logger] holds the messages handed to
    [Logger.handle] at level [ERROR]; [io] is the record of the calls made
    on the port since the object was created. *)
Record Octowire : Type := mkOctowire {
  serial_instance : handle;
  logger : list string;
  io : list Event
}.

(** [Octowire.__init__]. *)
Definition Octowire_init (serial_instance : handle) : Octowire :=
  {| serial_instance := serial_instance; logger := []; io := [] |}.

(** Modelled from the spec: [octowire.utils.Logger] is not among the
    sources; [logger.handle(msg, logger.ERROR)] reports a diagnostic
    message and has no other effect on the object. *)
Definition logger_handle (msg : string) : M Octowire unit :=
  fun o =>
    (Ok tt, {| serial_instance := serial_instance o;
               logger := logger o ++ [msg];
               io := io o |}).

(** *** Attribute access and calls on [self.serial_instance] *)

Definition serial_write (data : bytes) : M Octowire unit :=
  fun o =>
    match serial_instance o with
    | SerialPort s =>
        (Ok tt,
         {| serial_instance :=
              SerialPort {| dev := t_write data (dev s);
                            is_open := is_open s;
                            timeout := timeout s |};
            logger := logger o;
            io := io o ++ [EvWrite data] |})
    | NotSerial _ => (Raise (AttributeError "write"), o)
    end.

Definition serial_read (size : Z) : M Octowire bytes :=
  fun o =>
    match serial_instance o with
    | SerialPort s =>
        let (got, d') := t_read (timeout s) size (dev s) in
        (Ok got,
         {| serial_instance :=
              SerialPort {| dev := d';
                            is_open := is_open s;
                            timeout := timeout s |};
            logger := logger o;
            io := io o ++ [EvRead size got] |})
    | NotSerial _ => (Raise (AttributeError "read"), o)
    end.

Definition serial_in_waiting : M Octowire Z :=
  fun o =>
    match serial_instance o with
    | SerialPort s => (Ok (t_in_waiting (dev s)), o)
    | NotSerial _ => (Raise (AttributeError "in_waiting"), o)
    end.

Definition serial_is_open : M Octowire bool :=
  fun o =>
    match serial_instance o with
    | SerialPort s => (Ok (is_open s), o)
    | NotSerial _ => (Raise (AttributeError "is_open"), o)
    end.

Definition serial_get_timeout : M Octowire (option Z) :=
  fun o =>
    match serial_instance o with
    | SerialPort s => (Ok (timeout s), o)
    | NotSerial _ => (Raise (AttributeError "timeout"), o)
    end.

Definition serial_set_timeout (to : option Z) : M Octowire unit :=
  fun o =>
    match serial_instance o with
    | SerialPort s =>
        (Ok tt,
         {| serial_instance :=
              SerialPort {| dev := dev s; is_open := is_open s; timeout := to |};
            logger := logger o;
            io := io o |})
    | NotSerial _ => (Raise (AttributeError "timeout"), o)
    end.

(** [time.sleep]: time passes on the line, if there is one. *)
Definition time_sleep (ms : Z) : M Octowire unit :=
  fun o =>
    match serial_instance o with
    | SerialPort s =>
        (Ok tt,
         {| serial_instance :=
              SerialPort {| dev := t_sleep ms (dev s);
                            is_open := is_open s;
                            timeout := timeout s |};
            logger := logger o;
            io := io o |})
    | NotSerial _ => (Ok tt, o)
    end.

(** Looking up a method of the port, before its arguments are evaluated. *)
Definition serial_getattr (attr : string) : M Octowire unit :=
  fun o =>
    match serial_instance o with
    | SerialPort _ => (Ok tt, o)
    | NotSerial _ => (Raise (AttributeError attr), o)
    end.

(** ["{}".format(type(self.serial_instance))]. *)
Definition serial_type_name : M Octowire string :=
  fun o =>
    (Ok match serial_instance o with
        | SerialPort _ => "<class 'serial.serialposix.Serial'>"
        | NotSerial ty => ty
        end, o).

(** *** Methods of [Octowire] *)

Definition _is_serial_instance : M Octowire bool :=
  fun o =>
    (Ok match serial_instance o with
        | SerialPort _ => true
        | NotSerial _ => false
        end, o).

Definition _read_response_code (operation_name : option string)
    (disable_timeout : bool) : M Octowire unit :=
  timeout <- serial_get_timeout ;;
  (if disable_timeout then serial_set_timeout None else ret tt) ;;;
  status <- serial_read 1 ;;
  serial_set_timeout timeout ;;;
  if negb (bytes_eqb status [x00]) then
    raise (Exception ("Operation '" ++ fmt operation_name
                      ++ "' returned an error.")%string)
  else ret tt.

Definition _get_size_read_data (operation_name : option string) : M Octowire Z :=
  resp <- serial_read 4 ;;
  if bytes_falsy resp then
    raise (Exception ("Unable to get the size of the data to"
                      ++ " receive from the Octowire (Operation: "
                      ++ fmt operation_name ++ ").")%string)
  else lift_result (struct_unpack_L resp).

Definition _read_chunk (chunk_size : Z) (operation_name : option string)
  : M Octowire bytes :=
  chunk <- serial_read chunk_size ;;
  if bytes_falsy chunk then
    raise (Exception ("No data received from the Octowire (Operation: "
                      ++ fmt operation_name ++ ").")%string)
  else ret chunk.

(** The [while expected_size > 0] loop of [_read_data]; each iteration
    spends one unit of [fuel]. *)
Fixpoint _read_data_loop (fuel : nat) (expected_size : Z) (data : bytes)
    (operation_name : option string) : M Octowire bytes :=
  if expected_size >? 0 then
    match fuel with
    | O => fun o => (OutOfFuel, o)
    | S fuel' =>
        chunk_size <- _get_size_read_data operation_name ;;
        chunk <- _read_chunk chunk_size operation_name ;;
        _read_data_loop fuel' (expected_size - chunk_size) (data ++ chunk)
          operation_name
    end
  else ret data.

(** [if expected_size:] is false for [None] and for [0]. *)
Definition expected_size_truthy (expected_size : option Z) : bool :=
  match expected_size with
  | Some n => negb (n =? 0)
  | None => false
  end.

Definition _read_data (fuel : nat) (expected_size : option Z)
    (operation_name : option string) : M Octowire bytes :=
  let data := [] in
  if expected_size_truthy expected_size then
    _read_data_loop fuel
      (match expected_size with Some n => n | None => 0 end)
      data operation_name
  else
    chunk_size <- _get_size_read_data operation_name ;;
    chunk <- _read_chunk chunk_size operation_name ;;
    ret (data ++ chunk).

Definition detect_current_mode : M Octowire string :=
  serial_write [x0a] ;;;
  time_sleep 100 ;;;
  w <- serial_in_waiting ;;
  if negb (w =? 0) then
    w' <- serial_in_waiting ;;
    serial_read w' ;;;
    ret "t"
  else
    serial_write ([x00; x02] ++ repeat x00 10) ;;;
    _read_response_code (Some "Detect current mode") false ;;;
    _read_data 0 None (Some "Detect current mode") ;;;
    ret "b".

(** [if self.is_connected:] names the method without calling it; a bound
    method is a true value. *)
Definition is_connected_bound_method_truthy : bool := true.

(** Returns [True], [False], or nothing ([None]). *)
Definition ensure_binary_mode : M Octowire (option bool) :=
  if is_connected_bound_method_truthy then
    current_mode <- detect_current_mode ;;
    if String.eqb current_mode "t" then
      let binmode_opcode :=
        [x62; x69; x6e; x6d; x6f; x64; x65; x0a] in
      serial_write binmode_opcode ;;;
      time_sleep 1000 ;;;
      w <- serial_in_waiting ;;
      serial_read w ;;;
      m <- detect_current_mode ;;
      if String.eqb m "b" then ret (Some true)
      else
        logger_handle "Unable to switch the Octowire to binary mode." ;;;
        ret (Some false)
    else if String.eqb current_mode "b" then ret (Some true)
    else ret (Some false)
  else ret None.

Definition octowire_status_is_valid : M Octowire bool :=
  isi <- _is_serial_instance ;;
  if isi then
    octowire_mode <- detect_current_mode ;;
    match Some octowire_mode with
    | Some _ => ret true
    | None => ret false
    end
  else
    logger_handle "The serial_instance parameter is not a valid Serial instance." ;;;
    ret false.

(** Returns the version [str], or [None]. *)
Definition get_octowire_version : M Octowire (option str) :=
  valid <- octowire_status_is_valid ;;
  if valid then
    let version_opcode := [x00; x00; x02] in
    mode <- detect_current_mode ;;
    (if String.eqb mode "t" then ensure_binary_mode ;;; ret tt else ret tt) ;;;
    serial_write version_opcode ;;;
    status <- serial_read 1 ;;
    if bytes_eqb status [x00] then
      size <- serial_read 4 ;;
      if from_bytes_little size >? 0 then
        n <- lift_result (struct_unpack_L size) ;;
        version <- serial_read n ;;
        v <- lift_result (bytes_decode version) ;;
        ret (Some v)
      else
        logger_handle "Invalid version size returned by the Octowire." ;;;
        ret None
    else
      logger_handle "Error while trying to get Octowire version." ;;;
      ret None
  else ret None.

Definition is_connected : M Octowire bool :=
  isi <- _is_serial_instance ;;
  if isi then
    op <- serial_is_open ;;
    if op then
      version <- get_octowire_version ;;
      found <- lift_result (py_in_str (str_of_string "Octowire") version) ;;
      if found then ret true
      else
        logger_handle "Unable to get Octowire version..." ;;;
        ret false
    else
      logger_handle ("Serial port is a valid serial instance but"
                     ++ " no connection was detected.")%string ;;;
      ret false
  else
    ty <- serial_type_name ;;
    logger_handle (ty ++ " is not a Serial instance.")%string ;;;
    ret false.

(** ** The GPIO driver ([gpio.py]) *)

(** Wire constants of class [GPIO]. *)
Definition OPCODE : bytes := [x08].
Definition OPERATION_OUTPUT : bytes := [x01].
Definition OPERATION_INPUT : bytes := [x02].
Definition OPERATION_PULLUP : bytes := [x03].
Definition OPERATION_PULLDOWN : bytes := [x04].
Definition OPERATION_DEACTIVATE_PULL : bytes := [x05].
Definition OPERATION_SET_PIN_HIGH : bytes := [x06].
Definition OPERATION_SET_PIN_LOW : bytes := [x07].
Definition OPERATION_READ_PIN : bytes := [x08].

Definition OUTPUT : Z := 0.
Definition INPUT : Z := 1.

Definition PULL_UP : option Z := Some 0.
Definition PULL_DOWN : option Z := Some 1.
Definition PULL_DISABLE : option Z := None.

(** A value that is an [int] or [None]: [not v], and [v in l] for a list
    [l] of such values. *)
Definition py_not (v : option Z) : bool :=
  match v with
  | Some n => n =? 0
  | None => true
  end.

Definition py_eq (a b : option Z) : bool :=
  match a, b with
  | Some x, Some y => x =? y
  | None, None => true
  | _, _ => false
  end.

Definition py_in (v : option Z) (l : list (option Z)) : bool :=
  existsb (py_eq v) l.

(** A [GPIO] object: the attributes of its [Octowire] part, the pin, and
    the three cached attributes. *)
Record GPIO : Type := mkGPIO {
  base : Octowire;
  gpio_pin : option Z;
  direction_status : option Z;
  pull_status : option Z;
  pin_status : Z
}.

(** A method of the superclass, called on a [GPIO] object. *)
Definition super {A : Type} (m : M Octowire A) : M GPIO A :=
  fun g =>
    let (r, o) := m (base g) in
    (r, {| base := o;
           gpio_pin := gpio_pin g;
           direction_status := direction_status g;
           pull_status := pull_status g;
           pin_status := pin_status g |}).

Definition set_direction_status (v : option Z) : M GPIO unit :=
  fun g =>
    (Ok tt, {| base := base g;
               gpio_pin := gpio_pin g;
               direction_status := v;
               pull_status := pull_status g;
               pin_status := pin_status g |}).

Definition set_pull_status (v : option Z) : M GPIO unit :=
  fun g =>
    (Ok tt, {| base := base g;
               gpio_pin := gpio_pin g;
               direction_status := direction_status g;
               pull_status := v;
               pin_status := pin_status g |}).

Definition set_pin_status (v : Z) : M GPIO unit :=
  fun g =>
    (Ok tt, {| base := base g;
               gpio_pin := gpio_pin g;
               direction_status := direction_status g;
               pull_status := pull_status g;
               pin_status := v |}).

(** [GPIO.__init__]: the new object when construction succeeds, and in
    every case the state of the engine part (port, log, calls made). *)
Definition GPIO_init (serial_instance : handle) (gpio_pin : option Z)
  : Result GPIO * Octowire :=
  let o := Octowire_init serial_instance in
  if py_not gpio_pin && negb (py_in gpio_pin [Some 0; Some 15]) then
    (Raise (ValueError "gpio_pin parameter should be defined between 0 and 15."), o)
  else
    match ensure_binary_mode o with
    | (Ok r, o') =>
        if negb (match r with Some b => b | None => false end) then
          (Raise (ValueError "Unable to enter binary mode."), o')
        else
          (Ok {| base := o';
                 gpio_pin := gpio_pin;
                 direction_status := None;
                 pull_status := None;
                 pin_status := 0 |}, o')
    | (Raise e, o') => (Raise e, o')
    | (OutOfFuel, o') => (OutOfFuel, o')
    end.

Definition _send_operation_code (operation_code : bytes)
    (operation_name : option string) : M GPIO unit :=
  let args_size := struct_pack_H 2 in
  super (serial_getattr "write") ;;;
  pin <- (fun g => (bytes_of_int_list1 (gpio_pin g), g)) ;;
  super (serial_write (args_size ++ OPCODE ++ pin ++ operation_code)) ;;;
  super (_read_response_code operation_name false).

(** The [direction] property: getter and setter. *)
Definition direction : M GPIO (option Z) :=
  fun g => (Ok (direction_status g), g).

Definition direction_setter (direction : Z) : M GPIO unit :=
  if negb (py_in (Some direction) [Some 0; Some 1]) then
    raise (ValueError ("Invalid pin direction, the value should be"
                       ++ " 0 for output or 1 for input.")%string)
  else if direction =? 0 then
    _send_operation_code OPERATION_OUTPUT (Some "set GPIO pin as output") ;;;
    set_direction_status (Some 1)
  else
    _send_operation_code OPERATION_INPUT (Some "set GPIO pin as input") ;;;
    set_direction_status (Some 0).

(** The [pull] property. *)
Definition pull : M GPIO (option Z) :=
  fun g => (Ok (pull_status g), g).

Definition pull_setter (value : option Z) : M GPIO unit :=
  if negb (py_in value [PULL_UP; PULL_DOWN; PULL_DISABLE]) then
    raise (ValueError ("Invalid pull value, the value should be 0 for pull-up,"
                       ++ " 1 for pull-down or None for pull disabled.")%string)
  else
    (match value with
     | None =>
         _send_operation_code OPERATION_DEACTIVATE_PULL (Some "GPIO pull disable") ;;;
         set_pull_status None
     | Some _ => ret tt
     end) ;;;
    (if py_eq value (Some 0) then
       _send_operation_code OPERATION_PULLUP (Some "GPIO set pull-up") ;;;
       set_pull_status (Some 0)
     else ret tt) ;;;
    (if py_eq value (Some 1) then
       _send_operation_code OPERATION_PULLDOWN (Some "GPIO set pull-down") ;;;
       set_pull_status (Some 1)
     else ret tt).

Definition _set_output_pin_high : M GPIO unit :=
  _send_operation_code OPERATION_SET_PIN_HIGH (Some "Set GPIO pin to high") ;;;
  set_pin_status 1.

Definition _set_output_pin_low : M GPIO unit :=
  _send_operation_code OPERATION_SET_PIN_LOW (Some "Set GPIO pin to low") ;;;
  set_pin_status 0.

(** The [status] property. *)
Definition status : M GPIO Z :=
  fun g => (Ok (pin_status g), g).

Definition status_setter (value : Z) : M GPIO unit :=
  if negb (py_in (Some value) [Some 0; Some 1]) then
    raise (ValueError ("Invalid status value, the value should be"
                       ++ " 0 for low or 1 for high.")%string)
  else if value =? 0 then _set_output_pin_low
  else if value =? 1 then _set_output_pin_high
  else ret tt.

Definition toggle : M GPIO unit :=
  fun g => status_setter (if pin_status g =? 0 then 1 else 0) g.

Definition read : M GPIO bytes :=
  _send_operation_code OPERATION_READ_PIN (Some "GPIO read input pin") ;;;
  super (serial_read 1).

End Engine.

Arguments Serial D : clear implicits.
Arguments handle D : clear implicits.
Arguments Octowire D : clear implicits.
Arguments GPIO D : clear implicits.

(** ** An in-memory line

    A byte queue standing for the device in examples: [read(size)] takes
    up to [size] bytes from the queue, and each [write] makes the device
    answer with the next of its scripted replies (which may be empty). *)
Record Mock : Type := mkMock {
  inbuf : bytes;
  replies : list bytes
}.

Definition mock_write (data : bytes) (m : Mock) : Mock :=
  {| inbuf := inbuf m ++ hd [] (replies m); replies := tl (replies m) |}.

Definition mock_read (to : option Z) (size : Z) (m : Mock) : bytes * Mock :=
  (firstn (Z.to_nat size) (inbuf m),
   {| inbuf := skipn (Z.to_nat size) (inbuf m); replies := replies m |}).

#[export] Instance MockTransport : Transport Mock := {|
  t_write := mock_write;
  t_read := mock_read;
  t_in_waiting := fun m => Z.of_nat (List.length (inbuf m));
  t_sleep := fun _ m => m
|}.

(** An open port on a mock line, and a fresh engine on it. *)
Definition mock_port (inbuf : bytes) (replies : list bytes) : handle Mock :=
  SerialPort {| dev := {| inbuf := inbuf; replies := replies |};
                is_open := true;
                timeout := Some 1000 |}.

(** The answer of a device in binary mode to the frame that completes a
    mode probe: status [0x00] and one chunk of one byte. *)
Definition probe_reply : bytes := [x00; x01; x00; x00; x00; x2a].

(** ** Vocabulary of the statements *)

Section Vocabulary.

Context {D : Type} `{TD : Transport D}.

(** The port's configuration as the engine sees it (nothing when the
    handle is not a port). *)
Definition port_timeout (o : Octowire D) : option (option Z) :=
  match serial_instance o with
  | SerialPort s => Some (timeout s)
  | NotSerial _ => None
  end.

Definition port_is_open (o : Octowire D) : option bool :=
  match serial_instance o with
  | SerialPort s => Some (is_open s)
  | NotSerial _ => None
  end.

(** An engine on an open or closed port, field by field. *)
Definition engine_on (d : D) (op : bool) (to : option Z)
    (lg : list string) (tr : list Event) : Octowire D :=
  {| serial_instance := SerialPort {| dev := d; is_open := op; timeout := to |};
     logger := lg;
     io := tr |}.

(** The three cached attributes of a driver. *)
Definition caches (g : GPIO D) : option Z * option Z * Z :=
  (direction_status g, pull_status g, pin_status g).

(** The frame the driver puts on the line for an operation code: the
    16-bit little-endian argument size 2, the GPIO opcode, then the pin
    and the operation code. *)
Definition gpio_frame (pin : Z) (operation_code : bytes) : bytes :=
  struct_pack_H 2 ++ OPCODE ++ [byte_of_Z pin] ++ operation_code.

(** The frame as the specification words its argument body: the operation
    code first, the pin after it. *)
Definition gpio_frame_as_specified (pin : Z) (operation_code : bytes) : bytes :=
  struct_pack_H 2 ++ OPCODE ++ operation_code ++ [byte_of_Z pin].

(** The status bytes the device returns to [read(1)] once [frame] has been
    written to the line in state [d]. *)
Definition status_reply (to : option Z) (frame : bytes) (d : D) : bytes :=
  fst (t_read to 1 (t_write frame d)).

(** The eight operations of the driver and their codes. *)
Inductive operation : Type :=
| OpOutput | OpInput | OpPullup | OpPulldown | OpDeactivatePull
| OpSetPinHigh | OpSetPinLow | OpReadPin.

Definition operation_code (op : operation) : bytes :=
  match op with
  | OpOutput => OPERATION_OUTPUT
  | OpInput => OPERATION_INPUT
  | OpPullup => OPERATION_PULLUP
  | OpPulldown => OPERATION_PULLDOWN
  | OpDeactivatePull => OPERATION_DEACTIVATE_PULL
  | OpSetPinHigh => OPERATION_SET_PIN_HIGH
  | OpSetPinLow => OPERATION_SET_PIN_LOW
  | OpReadPin => OPERATION_READ_PIN
  end.

(** The commands of the driver that change the pin. *)
Inductive command : Type :=
| SetDirection (v : Z)
| SetPull (v : option Z)
| SetStatus (v : Z)
| Toggle.

Definition run_command (c : command) : M (GPIO D) unit :=
  match c with
  | SetDirection v => direction_setter v
  | SetPull v => pull_setter v
  | SetStatus v => status_setter v
  | Toggle => toggle
  end.

(** The operation a command with a legal argument sends, with the name it
    gives it; nothing for an argument the setter refuses. *)
Definition int_choice {A : Type} (v : Z) (zero one : A) : option A :=
  if v =? 0 then Some zero else if v =? 1 then Some one else None.

Definition sent_operation (c : command) (g : GPIO D) : option (operation * string) :=
  match c with
  | SetDirection v =>
      int_choice v (OpOutput, "set GPIO pin as output")
                   (OpInput, "set GPIO pin as input")
  | SetPull None => Some (OpDeactivatePull, "GPIO pull disable")
  | SetPull (Some v) =>
      int_choice v (OpPullup, "GPIO set pull-up")
                   (OpPulldown, "GPIO set pull-down")
  | SetStatus v =>
      int_choice v (OpSetPinLow, "Set GPIO pin to low")
                   (OpSetPinHigh, "Set GPIO pin to high")
  | Toggle =>
      if pin_status g =? 0 then Some (OpSetPinHigh, "Set GPIO pin to high")
      else Some (OpSetPinLow, "Set GPIO pin to low")
  end.

(** The chunks of a response.  [chunks_served to d cs d'] says that the
    line in state [d] delivers the chunks [cs] in order and is then in
    state [d']: for each chunk, [read(4)] returns its size as 4
    little-endian bytes and the [read] of that size returns its (non-empty)
    data. *)
Inductive chunks_served (to : option Z) : D -> list bytes -> D -> Prop :=
| served_nil (d : D) : chunks_served to d [] d
| served_cons (d d1 d2 d3 : D) (c : bytes) (cs : list bytes) :
    c <> [] ->
    Z.of_nat (List.length c) < 2 ^ 32 ->
    t_read to 4 d = (struct_pack_L (Z.of_nat (List.length c)), d1) ->
    t_read to (Z.of_nat (List.length c)) d1 = (c, d2) ->
    chunks_served to d2 cs d3 ->
    chunks_served to d (c :: cs) d3.

(** The reads that fetch the chunks [cs]. *)
Definition chunk_events (cs : list bytes) : list Event :=
  flat_map (fun c => [EvRead 4 (struct_pack_L (Z.of_nat (List.length c)));
                      EvRead (Z.of_nat (List.length c)) c]) cs.

(** The sum of the sizes of the chunks [cs]. *)
Definition total_size (cs : list bytes) : Z :=
  Z.of_nat (List.length (List.concat cs)).

(** One turn of the loop of [_read_data]: the size read, then the chunk. *)
Definition read_one_chunk (operation_name : option string)
  : M (Octowire D) (Z * bytes) :=
  chunk_size <- _get_size_read_data operation_name ;;
  chunk <- _read_chunk chunk_size operation_name ;;
  ret (chunk_size, chunk).

(** The frame that completes a mode probe on a line in binary mode. *)
Definition probe_frame : bytes := [x00; x02] ++ repeat x00 10.

(** The line once the probe byte has been written, 100 ms have passed,
    and the completing frame has been written. *)
Definition after_probe (d : D) : D :=
  t_write probe_frame (t_sleep 100 (t_write [x0a] d)).

(** The three reads that follow: the status, the size of the chunk, the
    chunk. *)
Definition probe_status (to : option Z) (d : D) : bytes * D :=
  t_read to 1 (after_probe d).

Definition probe_size (to : option Z) (d : D) : bytes * D :=
  t_read to 4 (snd (probe_status to d)).

Definition probe_chunk (to : option Z) (d : D) : bytes * D :=
  t_read to (from_bytes_little (fst (probe_size to d))) (snd (probe_size to d)).

(** A line whose device is in binary mode: the probe byte is not echoed,
    and the completing frame is answered with the success status and one
    chunk. *)
Definition binary_line (to : option Z) (d : D) : Prop :=
  t_in_waiting (t_sleep 100 (t_write [x0a] d)) = 0
  /\ fst (probe_status to d) = [x00]
  /\ List.length (fst (probe_size to d)) = 4%nat
  /\ fst (probe_chunk to d) <> [].

(** The calls a mode probe makes on such a line. *)
Definition probe_events (to : option Z) (d : D) : list Event :=
  [EvWrite [x0a];
   EvWrite probe_frame;
   EvRead 1 (fst (probe_status to d));
   EvRead 4 (fst (probe_size to d));
   EvRead (from_bytes_little (fst (probe_size to d))) (fst (probe_chunk to d))].


Definition no_data_message (operation_name : option string) : string :=
  ("No data received from the Octowire (Operation: "
   ++ fmt operation_name ++ ").")%string.

End Vocabulary.

(** ** Examples on the in-memory line *)

(** A driver on pin 3 whose device answers the next frame with [answer]. *)
Definition gpio3 (answer : bytes) : GPIO Mock :=
  mkGPIO (engine_on (mkMock [] [answer]) true (Some 1000) [] [])
    (Some 3) None None 0.

(** Two chunks of 4 and 6 bytes, a third of 8, and how they travel. *)
Definition chunk4 : bytes := [x01; x02; x03; x04].
Definition chunk6 : bytes := [x05; x06; x07; x08; x09; x0a].
Definition chunk8 : bytes := [x0b; x0c; x0d; x0e; x0f; x10; x11; x12].

Definition on_the_wire (c : bytes) : bytes :=
  struct_pack_L (Z.of_nat (List.length c)) ++ c.

Definition receiving (stream : bytes) : Octowire Mock :=
  engine_on (mkMock stream []) true (Some 1000) [] [].

(** ** Vocabulary of the further properties *)

Section Frames.

Context {D : Type} `{TD : Transport D}.

(** A method keeps a relation between the object before and after it when
    the relation holds whatever the method returns or raises. *)
Definition keeps {A : Type} (R : Octowire D -> Octowire D -> Prop)
    (m : M (Octowire D) A) : Prop :=
  forall o, R o (snd (m o)).

(** Nothing but reads happened: the log, the port's timeout and [is_open]
    and the writes made so far are the same. *)
Definition only_reads (o o' : Octowire D) : Prop :=
  logger o' = logger o
  /\ port_timeout o' = port_timeout o
  /\ port_is_open o' = port_is_open o
  /\ writes (io o') = writes (io o).

(** The log and the port's settings are the same (the line may have been
    written to). *)
Definition same_settings (o o' : Octowire D) : Prop :=
  logger o' = logger o
  /\ port_timeout o' = port_timeout o
  /\ port_is_open o' = port_is_open o.

(** The line after a mode probe: the probe byte written, 100 ms passed. *)
Definition probed (d : D) : D := t_sleep 100 (t_write [x0a] d).

(** A line whose device is in text mode: the probe byte is echoed. *)
Definition text_line (d : D) : Prop := t_in_waiting (probed d) <> 0.

(** The read that drains the echo. *)
Definition echo (to : option Z) (d : D) : bytes * D :=
  t_read to (t_in_waiting (probed d)) (probed d).

(** The calls a mode probe makes on a line in text mode. *)
Definition text_probe_events (to : option Z) (d : D) : list Event :=
  [EvWrite [x0a]; EvRead (t_in_waiting (probed d)) (fst (echo to d))].

(** The command that asks for binary mode, ["binmode\n"]. *)
Definition binmode_opcode : bytes :=
  [x62; x69; x6e; x6d; x6f; x64; x65; x0a].

(** The line once [ensure_binary_mode] has found text mode, written the
    command, waited a second and drained what came back. *)
Definition binmode_sent (to : option Z) (d : D) : D :=
  t_sleep 1000 (t_write binmode_opcode (snd (echo to d))).

Definition binmode_echo (to : option Z) (d : D) : bytes * D :=
  t_read to (t_in_waiting (binmode_sent to d)) (binmode_sent to d).

Definition switched (to : option Z) (d : D) : D := snd (binmode_echo to d).

Definition switch_events (to : option Z) (d : D) : list Event :=
  text_probe_events to d
  ++ [EvWrite binmode_opcode;
      EvRead (t_in_waiting (binmode_sent to d)) (fst (binmode_echo to d))].

(** The version query; its three reads on a line [d]: status, size,
    version. *)
Definition version_opcode : bytes := [x00; x00; x02].

Definition version_status (to : option Z) (d : D) : bytes * D :=
  t_read to 1 (t_write version_opcode d).

Definition version_size (to : option Z) (d : D) : bytes * D :=
  t_read to 4 (snd (version_status to d)).

Definition version_data (to : option Z) (d : D) : bytes * D :=
  t_read to (from_bytes_little (fst (version_size to d)))
    (snd (version_size to d)).

(** The cached attributes a command leaves on success. *)
Definition caches_after (c : command) (g : GPIO D) : option Z * option Z * Z :=
  match c with
  | SetDirection v =>
      (Some (if v =? 0 then 1 else 0), pull_status g, pin_status g)
  | SetPull v => (direction_status g, v, pin_status g)
  | SetStatus v => (direction_status g, pull_status g, v)
  | Toggle =>
      (direction_status g, pull_status g, if pin_status g =? 0 then 1 else 0)
  end.

(** The driver after a command [c], called in state [g], whose frame
    was answered with success and left the driver in state [g']: one
    cached attribute is set. *)
Definition apply_command (c : command) (g g' : GPIO D) : GPIO D :=
  match c with
  | SetDirection v =>
      mkGPIO (base g') (gpio_pin g') (Some (if v =? 0 then 1 else 0))
        (pull_status g') (pin_status g')
  | SetPull v =>
      mkGPIO (base g') (gpio_pin g') (direction_status g') v (pin_status g')
  | SetStatus v =>
      mkGPIO (base g') (gpio_pin g') (direction_status g') (pull_status g') v
  | Toggle =>
      mkGPIO (base g') (gpio_pin g') (direction_status g') (pull_status g')
        (if pin_status g =? 0 then 1 else 0)
  end.

(** [toggle()] called [n] times in a row. *)
Fixpoint toggle_times (n : nat) : M (GPIO D) unit :=
  match n with
  | O => ret tt
  | S n' => toggle ;;; toggle_times n'
  end.

(** The frame a toggle sends when the cached status is [st], and the
    status it caches. *)
Definition toggle_operation (st : Z) : bytes :=
  if st =? 0 then OPERATION_SET_PIN_HIGH else OPERATION_SET_PIN_LOW.

Definition toggled (st : Z) : Z := if st =? 0 then 1 else 0.

(** The device answers the next [n] toggles of pin [pin], starting from
    cached status [st], with the success status. *)
Fixpoint answers_toggles (to : option Z) (pin : Z) (n : nat) (st : Z) (d : D)
  : Prop :=
  match n with
  | O => True
  | S n' =>
      status_reply to (gpio_frame pin (toggle_operation st)) d = [x00]
      /\ answers_toggles to pin n' (toggled st)
           (snd (t_read to 1 (t_write (gpio_frame pin (toggle_operation st)) d)))
  end.

(** The line after those [n] toggles, and the calls they make. *)
Fixpoint after_toggles (to : option Z) (pin : Z) (n : nat) (st : Z) (d : D) : D :=
  match n with
  | O => d
  | S n' =>
      after_toggles to pin n' (toggled st)
        (snd (t_read to 1 (t_write (gpio_frame pin (toggle_operation st)) d)))
  end.

Fixpoint toggle_events (pin : Z) (n : nat) (st : Z) : list Event :=
  match n with
  | O => []
  | S n' =>
      [EvWrite (gpio_frame pin (toggle_operation st)); EvRead 1 [x00]]
      ++ toggle_events pin n' (toggled st)
  end.

Fixpoint toggled_times (n : nat) (st : Z) : Z :=
  match n with
  | O => st
  | S n' => toggled_times n' (toggled st)
  end.

End Frames.

(** A mock device in text mode that switches to binary mode when asked,
    and one that stays in text mode. *)
Definition text_echo : bytes := [x0d; x0a; x3e; x20].

Definition switching_device : Mock :=
  mkMock [] [text_echo; binmode_opcode; []; probe_reply].

Definition stuck_device : Mock :=
  mkMock [] [text_echo; binmode_opcode; text_echo].

(** The version answer of a device: status [0x00], size 11, the text
    ["Octowire v1"]. *)
Definition version_reply : bytes :=
  [x00; x0b; x00; x00; x00;
   x4f; x63; x74; x6f; x77; x69; x72; x65; x20; x76; x31].

(** Another version answer: status [0x00], size 3, the text ["abc"]. *)
Definition other_version_reply : bytes :=
  [x00; x03; x00; x00; x00; x61; x62; x63].

Definition versioned_device (answer : bytes) : Mock :=
  mkMock [] [[]; probe_reply; []; probe_reply; answer].

(** ** Properties *)

Section Properties.

Context {D : Type} `{TD : Transport D}.

Lemma bytes_eqb_eq (a b : bytes) : bytes_eqb a b = true <-> a = b.
Proof.
  unfold bytes_eqb. destruct (bytes_eq_dec a b); split; congruence.
Qed.

Lemma bytes_eqb_neq (a b : bytes) : bytes_eqb a b = false <-> a <> b.
Proof.
  unfold bytes_eqb. destruct (bytes_eq_dec a b); split; congruence.
Qed.

(** What [_read_response_code] does on a port: one [read(1)] under the
    port's timeout (or none), the timeout put back, and the status
    judged. *)
Lemma _read_response_code_on (name : option string) (dis : bool)
    (d : D) (op : bool) (to : option Z) (lg : list string) (tr : list Event) :
  _read_response_code name dis (engine_on d op to lg tr)
  = (if bytes_eqb (fst (t_read (if dis then None else to) 1 d)) [x00]
     then Ok tt
     else Raise (Exception ("Operation '" ++ fmt name
                            ++ "' returned an error.")%string),
     engine_on (snd (t_read (if dis then None else to) 1 d)) op to lg
       (tr ++ [EvRead 1 (fst (t_read (if dis then None else to) 1 d))])).
Proof.
  unfold _read_response_code, engine_on, bind, serial_get_timeout,
    serial_set_timeout, serial_read, ret, raise.
  destruct dis; simpl;
    match goal with |- context [t_read ?a ?b ?c] => destruct (t_read a b c) as [st d'] end;
    simpl; destruct (bytes_eqb st [x00]); reflexivity.
Qed.

(** C9. [_read_response_code] leaves the port's read timeout as it found
    it, whatever the prior timeout and the [disable_timeout] flag, and
    whether it returns (status [0x00]) or raises (any other status); the
    port's [is_open] and the log are untouched as well.  When the handle is
    no port at all the call raises on its first attribute access and
    changes nothing. *)
Theorem read_response_code_restores_timeout :
  forall (operation_name : option string) (disable_timeout : bool)
         (o : Octowire D),
    let o' := snd (_read_response_code operation_name disable_timeout o) in
    port_timeout o' = port_timeout o
    /\ port_is_open o' = port_is_open o
    /\ logger o' = logger o.
Proof.
  intros name dis [[[d op to]|ty] lg tr].
  - change (mkOctowire (SerialPort (mkSerial d op to)) lg tr)
      with (engine_on d op to lg tr).
    rewrite _read_response_code_on. simpl. auto.
  - simpl. auto.
Qed.

(** *** The GPIO driver *)

Lemma Z_of_byte_of_Z (n : Z) : 0 <= n < 256 -> Z_of_byte (byte_of_Z n) = n.
Proof.
  intros Hn. unfold Z_of_byte, byte_of_Z.
  rewrite Z.mod_small by lia.
  destruct (Byte.of_N (Z.to_N n)) as [b|] eqn:E.
  - apply Byte.to_of_N in E. rewrite E. lia.
  - apply Byte.of_N_None_iff in E. lia.
Qed.

(** What [_send_operation_code] does for a driver on a port whose pin fits
    in a byte: one frame written, one status byte read and judged. *)
Lemma _send_operation_code_on (opc : bytes) (name : option string)
    (d : D) (op : bool) (to : option Z) (lg : list string) (tr : list Event)
    (pin : Z) (ds ps : option Z) (st : Z) :
  0 <= pin < 256 ->
  _send_operation_code opc name
    (mkGPIO (engine_on d op to lg tr) (Some pin) ds ps st)
  = (if bytes_eqb (status_reply to (gpio_frame pin opc) d) [x00]
     then Ok tt
     else Raise (Exception ("Operation '" ++ fmt name
                            ++ "' returned an error.")%string),
     mkGPIO
       (engine_on (snd (t_read to 1 (t_write (gpio_frame pin opc) d))) op to lg
          (tr ++ [EvWrite (gpio_frame pin opc);
                  EvRead 1 (status_reply to (gpio_frame pin opc) d)]))
       (Some pin) ds ps st).
Proof.
  intros Hpin.
  assert (Hb : (0 <=? pin) && (pin <? 256) = true)
    by (apply andb_true_iff; split; [apply Z.leb_le | apply Z.ltb_lt]; lia).
  unfold _send_operation_code, bind, super at 1 2. simpl.
  rewrite Hb. simpl.
  change (mkOctowire (SerialPort (mkSerial ?d' op to)) lg ?tr')
    with (engine_on d' op to lg tr').
  unfold super. simpl.
  rewrite _read_response_code_on.
  unfold status_reply, gpio_frame. simpl.
  rewrite <- app_assoc. simpl.
  destruct (bytes_eqb _ _); reflexivity.
Qed.

Lemma bytes_eqb_refl (a : bytes) : bytes_eqb a a = true.
Proof. apply bytes_eqb_eq. reflexivity. Qed.

Lemma not_in_0_1 (v : Z) :
  v <> 0 -> v <> 1 -> py_in (Some v) [Some 0; Some 1] = false.
Proof.
  intros H0 H1. simpl.
  destruct (Z.eqb_spec v 0); [contradiction|].
  destruct (Z.eqb_spec v 1); [contradiction|]. reflexivity.
Qed.

(** The setters refuse an argument outside their legal values without
    touching the object. *)
Lemma direction_setter_invalid (v : Z) (g : GPIO D) :
  v <> 0 -> v <> 1 ->
  direction_setter v g
  = (Raise (ValueError ("Invalid pin direction, the value should be"
                        ++ " 0 for output or 1 for input.")%string), g).
Proof.
  intros H0 H1. unfold direction_setter.
  rewrite (not_in_0_1 v H0 H1). reflexivity.
Qed.

Lemma status_setter_invalid (v : Z) (g : GPIO D) :
  v <> 0 -> v <> 1 ->
  status_setter v g
  = (Raise (ValueError ("Invalid status value, the value should be"
                        ++ " 0 for low or 1 for high.")%string), g).
Proof.
  intros H0 H1. unfold status_setter.
  rewrite (not_in_0_1 v H0 H1). reflexivity.
Qed.

Ltac send_step :=
  unfold bind; rewrite _send_operation_code_on by assumption.

(** C3 (amended). For every GPIO operation and every pin id in 0..255
    (every pin in 0..15 among them), [_send_operation_code] makes exactly
    one write, of one frame: the 16-bit little-endian argument size 2, the
    opcode byte [0x08], then two argument bytes, the pin id first and the
    operation code second; one status byte is read after it. *)
Theorem send_operation_code_frame :
  forall (op : operation) (operation_name : option string)
         (d : D) (opn : bool) (to : option Z) (lg : list string)
         (tr : list Event) (pin : Z) (ds ps : option Z) (st : Z),
    0 <= pin < 256 ->
    let g := mkGPIO (engine_on d opn to lg tr) (Some pin) ds ps st in
    let g' := snd (_send_operation_code (operation_code op) operation_name g) in
    exists (code : byte) (args : bytes) (reply : bytes),
      operation_code op = [code]
      /\ args = [byte_of_Z pin; code]
      /\ Z_of_byte (byte_of_Z pin) = pin
      /\ io (base g')
         = io (base g)
           ++ [EvWrite (struct_pack_H (Z.of_nat (List.length args))
                         ++ [x08] ++ args);
               EvRead 1 reply]
      /\ struct_pack_H (Z.of_nat (List.length args)) = [x02; x00].
Proof.
  intros op name d opn to lg tr pin ds ps st Hpin g g'.
  assert (Hc : exists code, operation_code op = [code])
    by (destruct op; eexists; reflexivity).
  destruct Hc as [code Hc].
  exists code, [byte_of_Z pin; code],
    (status_reply to (gpio_frame pin (operation_code op)) d).
  split; [exact Hc|]. split; [reflexivity|].
  split; [apply Z_of_byte_of_Z; exact Hpin|].
  split; [|reflexivity].
  subst g g'. rewrite _send_operation_code_on by exact Hpin.
  unfold gpio_frame. rewrite Hc. reflexivity.
Qed.

(** C8. On a driver whose device answers the frame with the success
    status: setting direction 0 (output) leaves [direction_status] at 1,
    setting direction 1 (input) leaves it at 0; and any other value is
    refused, on any driver, with a [ValueError] and the object, its line
    included, exactly as it was, so nothing has been written. *)
Theorem direction_setter_inverts :
  forall (d : D) (opn : bool) (to : option Z) (lg : list string)
         (tr : list Event) (pin : Z) (ds ps : option Z) (st : Z),
    0 <= pin < 256 ->
    let g := mkGPIO (engine_on d opn to lg tr) (Some pin) ds ps st in
    (status_reply to (gpio_frame pin OPERATION_OUTPUT) d = [x00] ->
       fst (direction_setter 0 g) = Ok tt
       /\ direction_status (snd (direction_setter 0 g)) = Some 1)
    /\ (status_reply to (gpio_frame pin OPERATION_INPUT) d = [x00] ->
       fst (direction_setter 1 g) = Ok tt
       /\ direction_status (snd (direction_setter 1 g)) = Some 0)
    /\ (forall (v : Z) (g0 : GPIO D), v <> 0 -> v <> 1 ->
          exists msg, direction_setter v g0 = (Raise (ValueError msg), g0)).
Proof.
  intros d opn to lg tr pin ds ps st Hpin g. subst g.
  split; [|split].
  - intros Hok. unfold direction_setter.
    change (negb (py_in (Some 0) [Some 0; Some 1])) with false.
    cbv iota. change (0 =? 0) with true. cbv iota.
    send_step. rewrite Hok, bytes_eqb_refl. split; reflexivity.
  - intros Hok. unfold direction_setter.
    change (negb (py_in (Some 1) [Some 0; Some 1])) with false.
    cbv iota. change (1 =? 0) with false. cbv iota.
    send_step. rewrite Hok, bytes_eqb_refl. split; reflexivity.
  - intros v g0 H0 H1. eexists. apply direction_setter_invalid; assumption.
Qed.

Lemma int_choice_inv {A : Type} (v : Z) (zero one r : A) :
  int_choice v zero one = Some r ->
  (v = 0 /\ r = zero) \/ (v = 1 /\ r = one).
Proof.
  unfold int_choice.
  destruct (Z.eqb_spec v 0); [intros [= <-]; auto|].
  destruct (Z.eqb_spec v 1); [intros [= <-]; auto|]. discriminate.
Qed.

(** C2. For each command of the driver (the direction, pull and status
    setters with a legal argument, and [toggle]): when the status byte read
    after the command's frame is anything but [0x00] (an empty read
    included), the call raises the error that names the operation, and the
    three cached attributes are what they were. *)
Theorem failed_command_raises_and_keeps_caches :
  forall (c : command) (d : D) (opn : bool) (to : option Z)
         (lg : list string) (tr : list Event) (pin : Z) (ds ps : option Z)
         (st : Z) (op : operation) (name : string),
    0 <= pin < 256 ->
    let g := mkGPIO (engine_on d opn to lg tr) (Some pin) ds ps st in
    sent_operation c g = Some (op, name) ->
    status_reply to (gpio_frame pin (operation_code op)) d <> [x00] ->
    fst (run_command c g)
    = Raise (Exception ("Operation '" ++ name ++ "' returned an error.")%string)
    /\ caches (snd (run_command c g)) = caches g.
Proof.
  intros c d opn to lg tr pin ds ps st op name Hpin g Hsent Hbad.
  apply bytes_eqb_neq in Hbad. subst g.
  destruct c as [v | [v|] | v | ]; cbn [sent_operation run_command] in *.
  - apply int_choice_inv in Hsent.
    destruct Hsent as [[-> [= -> ->]] | [-> [= -> ->]]];
      unfold direction_setter;
      [ change (negb (py_in (Some 0) [Some 0; Some 1])) with false;
        change (0 =? 0) with true
      | change (negb (py_in (Some 1) [Some 0; Some 1])) with false;
        change (1 =? 0) with false ];
      cbv iota; send_step; cbn [operation_code] in Hbad; rewrite Hbad;
      split; reflexivity.
  - apply int_choice_inv in Hsent.
    destruct Hsent as [[-> [= -> ->]] | [-> [= -> ->]]];
      unfold pull_setter;
      [ change (negb (py_in (Some 0) [PULL_UP; PULL_DOWN; PULL_DISABLE])) with false;
        change (py_eq (Some 0) (Some 0)) with true
      | change (negb (py_in (Some 1) [PULL_UP; PULL_DOWN; PULL_DISABLE])) with false;
        change (py_eq (Some 1) (Some 0)) with false;
        change (py_eq (Some 1) (Some 1)) with true ];
      cbv iota; unfold bind, ret; cbv beta iota;
      rewrite _send_operation_code_on by assumption;
      cbn [operation_code] in Hbad; rewrite Hbad; split; reflexivity.
  - injection Hsent as <- <-. unfold pull_setter.
    change (negb (py_in None [PULL_UP; PULL_DOWN; PULL_DISABLE])) with false.
    cbv iota. unfold bind, ret. cbv beta iota.
    rewrite _send_operation_code_on by assumption.
    cbn [operation_code] in Hbad; rewrite Hbad; split; reflexivity.
  - apply int_choice_inv in Hsent.
    destruct Hsent as [[-> [= -> ->]] | [-> [= -> ->]]];
      unfold status_setter;
      [ change (negb (py_in (Some 0) [Some 0; Some 1])) with false;
        change (0 =? 0) with true
      | change (negb (py_in (Some 1) [Some 0; Some 1])) with false;
        change (1 =? 0) with false; change (1 =? 1) with true ];
      cbv iota; unfold _set_output_pin_low, _set_output_pin_high; send_step;
      cbn [operation_code] in Hbad; rewrite Hbad; split; reflexivity.
  - unfold toggle. cbn [pin_status] in *.
    destruct (st =? 0); injection Hsent as <- <-; unfold status_setter;
      [ change (negb (py_in (Some 1) [Some 0; Some 1])) with false;
        change (1 =? 0) with false; change (1 =? 1) with true
      | change (negb (py_in (Some 0) [Some 0; Some 1])) with false;
        change (0 =? 0) with true ];
      cbv iota; unfold _set_output_pin_low, _set_output_pin_high; send_step;
      cbn [operation_code] in Hbad; rewrite Hbad; split; reflexivity.
Qed.

(** *** Chunked reception *)

Lemma Z_of_byte_of_Z_mod (v : Z) : Z_of_byte (byte_of_Z v) = v mod 256.
Proof.
  unfold Z_of_byte, byte_of_Z.
  pose proof (Z.mod_pos_bound v 256 ltac:(lia)) as Hm.
  destruct (Byte.of_N (Z.to_N (v mod 256))) as [b|] eqn:E.
  - apply Byte.to_of_N in E. rewrite E. lia.
  - apply Byte.of_N_None_iff in E. lia.
Qed.

Lemma struct_pack_L_length (n : Z) : List.length (struct_pack_L n) = 4%nat.
Proof. reflexivity. Qed.

Lemma struct_unpack_pack_L (n : Z) :
  0 <= n < 2 ^ 32 -> struct_unpack_L (struct_pack_L n) = Ok n.
Proof.
  intros Hn. unfold struct_unpack_L. rewrite struct_pack_L_length.
  change ((4 =? 4)%nat) with true. cbv iota. f_equal.
  unfold struct_pack_L, to_bytes_little, from_bytes_little.
  rewrite !Z_of_byte_of_Z_mod.
  pose proof (Z.div_mod n 256 ltac:(lia)) as H0.
  pose proof (Z.div_mod (n / 256) 256 ltac:(lia)) as H1.
  pose proof (Z.div_mod (n / 256 / 256) 256 ltac:(lia)) as H2.
  pose proof (Z.div_mod (n / 256 / 256 / 256) 256 ltac:(lia)) as H3.
  assert (H4 : n / 256 / 256 / 256 / 256 = 0).
  { rewrite !Z.div_div by lia. apply Z.div_small. change (2 ^ 32) with 4294967296 in Hn. lia. }
  lia.
Qed.

Lemma serial_read_on (n : Z) (d : D) (op : bool) (to : option Z)
    (lg : list string) (tr : list Event) :
  serial_read n (engine_on d op to lg tr)
  = (Ok (fst (t_read to n d)),
     engine_on (snd (t_read to n d)) op to lg
       (tr ++ [EvRead n (fst (t_read to n d))])).
Proof.
  unfold serial_read, engine_on. simpl.
  destruct (t_read to n d); reflexivity.
Qed.

Lemma _get_size_read_data_on (name : option string) (d : D) (op : bool)
    (to : option Z) (lg : list string) (tr : list Event) :
  _get_size_read_data name (engine_on d op to lg tr)
  = (if bytes_falsy (fst (t_read to 4 d))
     then Raise (Exception ("Unable to get the size of the data to"
                            ++ " receive from the Octowire (Operation: "
                            ++ fmt name ++ ").")%string)
     else struct_unpack_L (fst (t_read to 4 d)),
     engine_on (snd (t_read to 4 d)) op to lg
       (tr ++ [EvRead 4 (fst (t_read to 4 d))])).
Proof.
  unfold _get_size_read_data, bind. rewrite serial_read_on.
  destruct (bytes_falsy _); reflexivity.
Qed.

Lemma _read_chunk_on (n : Z) (name : option string) (d : D) (op : bool)
    (to : option Z) (lg : list string) (tr : list Event) :
  _read_chunk n name (engine_on d op to lg tr)
  = (if bytes_falsy (fst (t_read to n d))
     then Raise (Exception ("No data received from the Octowire (Operation: "
                            ++ fmt name ++ ").")%string)
     else Ok (fst (t_read to n d)),
     engine_on (snd (t_read to n d)) op to lg
       (tr ++ [EvRead n (fst (t_read to n d))])).
Proof.
  unfold _read_chunk, bind. rewrite serial_read_on.
  destruct (bytes_falsy _); reflexivity.
Qed.

Lemma bytes_falsy_false (b : bytes) : b <> [] -> bytes_falsy b = false.
Proof. destruct b; [congruence | reflexivity]. Qed.

(** The loop, one turn at a time. *)
Lemma _read_data_loop_step (fuel : nat) (e : Z) (data : bytes)
    (name : option string) (o : Octowire D) :
  0 < e ->
  _read_data_loop (S fuel) e data name o
  = match read_one_chunk name o with
    | (Ok (n, c), o') => _read_data_loop fuel (e - n) (data ++ c) name o'
    | (Raise x, o') => (Raise x, o')
    | (OutOfFuel, o') => (OutOfFuel, o')
    end.
Proof.
  intros He. cbn [_read_data_loop].
  destruct (Z.gtb_spec e 0); [|lia].
  unfold read_one_chunk, bind, ret.
  destruct (_get_size_read_data name o) as [[n| |] o1]; try reflexivity.
  destruct (_read_chunk n name o1) as [[c| |] o2]; reflexivity.
Qed.

Lemma _read_data_loop_done (fuel : nat) (e : Z) (data : bytes)
    (name : option string) (o : Octowire D) :
  e <= 0 -> _read_data_loop fuel e data name o = (Ok data, o).
Proof.
  intros He. destruct fuel; cbn [_read_data_loop];
    destruct (Z.gtb_spec e 0); try lia; reflexivity.
Qed.

(** A turn of the loop on a line that serves a chunk. *)
Lemma read_one_chunk_served (name : option string) (c : bytes)
    (d d1 d2 : D) (op : bool) (to : option Z) (lg : list string)
    (tr : list Event) :
  c <> [] ->
  Z.of_nat (List.length c) < 2 ^ 32 ->
  t_read to 4 d = (struct_pack_L (Z.of_nat (List.length c)), d1) ->
  t_read to (Z.of_nat (List.length c)) d1 = (c, d2) ->
  read_one_chunk name (engine_on d op to lg tr)
  = (Ok (Z.of_nat (List.length c), c),
     engine_on d2 op to lg (tr ++ chunk_events [c])).
Proof.
  intros Hc Hlen H4 Hn.
  unfold read_one_chunk, bind. rewrite _get_size_read_data_on, H4.
  cbn [fst snd]. change (bytes_falsy (struct_pack_L _)) with false. cbv iota.
  rewrite struct_unpack_pack_L by lia.
  rewrite _read_chunk_on, Hn. cbn [fst snd].
  rewrite (bytes_falsy_false c Hc). unfold ret.
  rewrite <- app_assoc. reflexivity.
Qed.

Lemma total_size_cons (c : bytes) (cs : list bytes) :
  total_size (c :: cs) = Z.of_nat (List.length c) + total_size cs.
Proof.
  unfold total_size. cbn [List.concat]. rewrite length_app. lia.
Qed.

Lemma total_size_nonneg (cs : list bytes) : 0 <= total_size cs.
Proof. unfold total_size. lia. Qed.

Lemma total_size_app (a b : list bytes) :
  total_size (a ++ b) = total_size a + total_size b.
Proof.
  unfold total_size. rewrite concat_app, length_app. lia.
Qed.

Lemma chunk_events_app (a b : list bytes) :
  chunk_events (a ++ b) = chunk_events a ++ chunk_events b.
Proof. unfold chunk_events. apply flat_map_app. Qed.

Lemma chunks_served_app (to : option Z) (a b : list bytes) (d d' : D) :
  chunks_served to d (a ++ b) d' ->
  exists dm, chunks_served to d a dm /\ chunks_served to dm b d'.
Proof.
  revert d. induction a as [|c a IH]; intros d H.
  - exists d. split; [constructor | exact H].
  - cbn [app] in H. inversion H; subst.
    destruct (IH _ H8) as [dm [Ha Hb]].
    exists dm. split; [econstructor; eassumption | exact Hb].
Qed.

(** Every served chunk holds at least one byte. *)
Lemma chunks_served_count (to : option Z) (cs : list bytes) (d d' : D) :
  chunks_served to d cs d' -> Z.of_nat (List.length cs) <= total_size cs.
Proof.
  induction 1 as [|d d1 d2 d3 c cs Hc Hlen H4 Hn Hs IH].
  - unfold total_size. simpl. lia.
  - rewrite total_size_cons. cbn [List.length].
    destruct c; [congruence|]. cbn [List.length]. lia.
Qed.

(** While the chunks received so far sum to less than the expected size,
    the loop goes on to the next one. *)
Lemma _read_data_loop_served (name : option string) (to : option Z)
    (op : bool) (lg : list string) :
  forall (cs : list bytes) (d d' : D),
    chunks_served to d cs d' ->
    forall (fuel : nat) (e : Z) (data : bytes) (tr : list Event),
      total_size cs < e ->
      (List.length cs <= fuel)%nat ->
      _read_data_loop fuel e data name (engine_on d op to lg tr)
      = _read_data_loop (fuel - List.length cs) (e - total_size cs)
          (data ++ List.concat cs) name
          (engine_on d' op to lg (tr ++ chunk_events cs)).
Proof.
  induction 1 as [|d d1 d2 d3 c cs Hc Hlen H4 Hn Hs IH];
    intros fuel e data tr He Hfuel.
  - cbn [List.length List.concat chunk_events flat_map].
    rewrite Nat.sub_0_r, !app_nil_r.
    unfold total_size. cbn. rewrite Z.sub_0_r. reflexivity.
  - rewrite total_size_cons in He.
    pose proof (total_size_nonneg cs) as Hcs.
    destruct fuel as [|fuel]; [cbn in Hfuel; lia|].
    cbn [List.length] in Hfuel.
    rewrite _read_data_loop_step by lia.
    rewrite (read_one_chunk_served name c d d1 d2) by assumption.
    rewrite IH by lia.
    rewrite total_size_cons. cbn [List.length List.concat].
    change (chunk_events (c :: cs)) with (chunk_events [c] ++ chunk_events cs).
    rewrite <- !app_assoc.
    replace (S fuel - S (List.length cs))%nat with (fuel - List.length cs)%nat by lia.
    replace (e - Z.of_nat (List.length c) - total_size cs)
      with (e - (Z.of_nat (List.length c) + total_size cs)) by lia.
    reflexivity.
Qed.

(** C1. With a positive [expected_size], on a line that serves the chunks
    [cs] and then [last] (each a 4-byte little-endian size followed by that
    many bytes, at least one), where the sizes of [cs] sum to less than
    [expected_size] and [last] brings the sum to [expected_size] or
    beyond, [_read_data] reads exactly these chunks, turn by turn, and
    returns all their data concatenated: nothing is cut off and no error
    is raised when the sum exceeds [expected_size]. *)
Theorem read_data_returns_concatenation :
  forall (expected_size : Z) (cs : list bytes) (last : bytes)
         (fuel : nat) (operation_name : option string)
         (d d' : D) (op : bool) (to : option Z) (lg : list string)
         (tr : list Event),
    0 < expected_size ->
    chunks_served to d (cs ++ [last]) d' ->
    total_size cs < expected_size <= total_size (cs ++ [last]) ->
    (Z.to_nat expected_size <= fuel)%nat ->
    _read_data fuel (Some expected_size) operation_name
      (engine_on d op to lg tr)
    = (Ok (List.concat (cs ++ [last])),
       engine_on d' op to lg (tr ++ chunk_events (cs ++ [last]))).
Proof.
  intros e cs last fuel name d d' op to lg tr He Hs [Hlt Hge] Hfuel.
  destruct (chunks_served_app _ _ _ _ _ Hs) as [dm [Hcs Hlast]].
  pose proof (chunks_served_count _ _ _ _ Hcs) as Hcount.
  unfold _read_data. cbn [expected_size_truthy].
  destruct (Z.eqb_spec e 0); [lia|]. cbn [negb].
  rewrite (_read_data_loop_served name to op lg cs d dm Hcs) by lia.
  inversion Hlast as [|? d1 d2 d3 ? ? Hc Hlen H4 Hn Hnil]; subst.
  inversion Hnil; subst.
  rewrite total_size_app, total_size_cons in Hge.
  change (total_size []) with 0 in Hge.
  destruct (fuel - List.length cs)%nat as [|fuel'] eqn:Ef; [lia|].
  rewrite _read_data_loop_step by lia.
  rewrite (read_one_chunk_served name last dm d1 d') by assumption.
  rewrite _read_data_loop_done by lia.
  rewrite concat_app, chunk_events_app, <- !app_assoc.
  cbn [List.concat]. rewrite app_nil_r. reflexivity.
Qed.

(** *** Termination of the loop *)

(** A turn of the loop never runs out of fuel, and makes at most two
    reads. *)
Lemma read_one_chunk_returns (name : option string) (o : Octowire D) :
  fst (read_one_chunk name o) <> OutOfFuel
  /\ exists tr, io (snd (read_one_chunk name o)) = io o ++ tr
                /\ (List.length tr <= 2)%nat.
Proof.
  destruct o as [[[d op to]|ty] lg tr].
  - change (mkOctowire (SerialPort (mkSerial d op to)) lg tr)
      with (engine_on d op to lg tr).
    unfold read_one_chunk, bind. rewrite _get_size_read_data_on.
    destruct (bytes_falsy (fst (t_read to 4 d))).
    + cbn [fst snd engine_on io]. split; [discriminate|].
      eexists. split; [reflexivity | cbn; lia].
    + unfold struct_unpack_L.
      destruct (List.length (fst (t_read to 4 d)) =? 4)%nat.
      * rewrite _read_chunk_on.
        destruct (bytes_falsy _); cbn [fst snd engine_on io ret];
          (split; [discriminate|]); rewrite <- app_assoc;
          eexists; (split; [reflexivity | cbn; lia]).
      * cbn [fst snd engine_on io]. split; [discriminate|].
        eexists. split; [reflexivity | cbn; lia].
  - cbn. split; [discriminate|]. exists []. rewrite app_nil_r. split; [reflexivity | cbn; lia].
Qed.

(** A turn that completes has read a non-empty chunk, whose declared size,
    under pyserial's contract, is at least 1. *)
Lemma read_one_chunk_progress (name : option string) (o o' : Octowire D)
    (n : Z) (c : bytes) :
  read_bounded ->
  read_one_chunk name o = (Ok (n, c), o') -> c <> [] /\ 1 <= n.
Proof.
  intros Hb.
  destruct o as [[[d op to]|ty] lg tr]; [|cbn; discriminate].
  change (mkOctowire (SerialPort (mkSerial d op to)) lg tr)
    with (engine_on d op to lg tr).
  unfold read_one_chunk, bind. rewrite _get_size_read_data_on.
  destruct (bytes_falsy (fst (t_read to 4 d))); [discriminate|].
  unfold struct_unpack_L.
  destruct (List.length (fst (t_read to 4 d)) =? 4)%nat; [|discriminate].
  rewrite _read_chunk_on.
  set (m := from_bytes_little (fst (t_read to 4 d))).
  set (d1 := snd (t_read to 4 d)).
  destruct (bytes_falsy (fst (t_read to m d1))) eqn:Ef; [discriminate|].
  unfold ret. intros [= <- <- _].
  pose proof (Hb to m d1) as Hlen.
  destruct (fst (t_read to m d1)); [discriminate|].
  cbn [List.length] in Hlen. split; [discriminate | lia].
Qed.

Lemma _read_data_loop_fuel (name : option string) :
  read_bounded ->
  forall (fuel : nat) (e : Z) (data : bytes) (o : Octowire D),
    (Z.to_nat e <= fuel)%nat ->
    fst (_read_data_loop fuel e data name o) <> OutOfFuel
    /\ (forall fuel' : nat,
          (Z.to_nat e <= fuel')%nat ->
          _read_data_loop fuel' e data name o
          = _read_data_loop fuel e data name o)
    /\ exists tr,
         io (snd (_read_data_loop fuel e data name o)) = io o ++ tr
         /\ (List.length tr <= 2 * Z.to_nat e)%nat.
Proof.
  intros Hb. induction fuel as [|fuel IH]; intros e data o Hfuel.
  - assert (He : e <= 0) by lia.
    rewrite _read_data_loop_done by exact He. cbn [fst snd].
    split; [discriminate|]. split.
    + intros fuel' _. apply _read_data_loop_done. exact He.
    + exists []. rewrite app_nil_r. split; [reflexivity | cbn; lia].
  - destruct (Z_lt_le_dec 0 e) as [He|He].
    + rewrite _read_data_loop_step by exact He.
      pose proof (read_one_chunk_returns name o) as [Hnf [tr1 [Htr1 Hlen1]]].
      destruct (read_one_chunk name o) as [[[n c]| x |] o1] eqn:E;
        cbn [fst snd] in *.
      * pose proof (read_one_chunk_progress name o o1 n c Hb E) as [_ Hn].
        destruct (IH (e - n) (data ++ c) o1 ltac:(lia)) as [H1 [H2 [tr2 [Htr2 Hlen2]]]].
        split; [exact H1|]. split.
        -- intros [|fuel'] Hf'; [lia|].
           rewrite _read_data_loop_step by exact He. rewrite E.
           apply H2. lia.
        -- exists (tr1 ++ tr2). rewrite Htr2, Htr1, app_assoc.
           split; [reflexivity|]. rewrite length_app. lia.
      * split; [discriminate|]. split.
        -- intros [|fuel'] Hf'; [lia|].
           rewrite _read_data_loop_step by exact He. rewrite E. reflexivity.
        -- exists tr1. split; [exact Htr1 | lia].
      * congruence.
    + rewrite _read_data_loop_done by exact He. cbn [fst snd].
      split; [discriminate|]. split.
      * intros fuel' _. apply _read_data_loop_done. exact He.
      * exists []. rewrite app_nil_r. split; [reflexivity | cbn; lia].
Qed.

(** C10. On a port that keeps pyserial's contract ([read(size)] returns at
    most [size] bytes), the loop of [_read_data] ends for every positive
    [expected_size] and whatever the line delivers.  A turn either raises
    or completes with a non-empty chunk of declared size at least 1, so
    the remaining size goes down at every turn; [expected_size] turns of
    fuel are therefore always enough (more fuel changes nothing), and the
    call returns or raises after at most [expected_size] turns, that is at
    most [2 * expected_size] reads.  A chunk whose declared size is 0
    makes the call raise, its data being empty. *)
Theorem read_data_terminates :
  read_bounded ->
  forall (expected_size : Z) (operation_name : option string),
    0 < expected_size ->
    (forall (o o' : Octowire D) (n : Z) (c : bytes),
        read_one_chunk operation_name o = (Ok (n, c), o') ->
        c <> [] /\ 1 <= n)
    /\ (forall (fuel : nat) (o : Octowire D),
          (Z.to_nat expected_size <= fuel)%nat ->
          let out := _read_data fuel (Some expected_size) operation_name o in
          fst out <> OutOfFuel
          /\ out = _read_data (Z.to_nat expected_size) (Some expected_size)
                     operation_name o
          /\ (exists tr, io (snd out) = io o ++ tr
                         /\ (List.length tr <= 2 * Z.to_nat expected_size)%nat)
          /\ (forall d op to lg tr,
                o = engine_on d op to lg tr ->
                fst (t_read to 4 d) = struct_pack_L 0 ->
                fst out = Raise (Exception (no_data_message operation_name)))).
Proof.
  intros Hb e name He. split.
  { intros o o' n c E. exact (read_one_chunk_progress name o o' n c Hb E). }
  intros fuel o Hfuel out. subst out.
  unfold _read_data. cbn [expected_size_truthy].
  destruct (Z.eqb_spec e 0); [lia|]. cbn [negb].
  destruct (_read_data_loop_fuel name Hb fuel e [] o Hfuel) as [H1 [H2 H3]].
  split; [exact H1|]. split; [symmetry; apply H2; lia|]. split; [exact H3|].
  intros d op to lg tr -> Hzero.
  destruct fuel as [|fuel]; [lia|].
  rewrite _read_data_loop_step by exact He.
  unfold read_one_chunk, bind.
  rewrite _get_size_read_data_on, Hzero.
  change (bytes_falsy (struct_pack_L 0)) with false. cbv iota.
  rewrite struct_unpack_pack_L by (change (2 ^ 32) with 4294967296; lia).
  rewrite _read_chunk_on.
  pose proof (Hb to 0 (snd (t_read to 4 d))) as Hlen.
  destruct (fst (t_read to 0 (snd (t_read to 4 d)))); [reflexivity|].
  cbn in Hlen. lia.
Qed.

(** *** Reads that return nothing *)

Lemma bytes_falsy_true (b : bytes) : b = [] -> bytes_falsy b = true.
Proof. intros ->. reflexivity. Qed.



Lemma _read_data_unknown_size (fuel : nat) (name : option string)
    (o : Octowire D) :
  fst (_read_data fuel None name o)
  = match fst (read_one_chunk name o) with
    | Ok (_, c) => Ok c
    | Raise x => Raise x
    | OutOfFuel => OutOfFuel
    end.
Proof.
  unfold _read_data, read_one_chunk, bind, ret. cbn [expected_size_truthy].
  destruct (_get_size_read_data name o) as [[n| |] o1]; try reflexivity.
  destruct (_read_chunk n name o1) as [[c| |] o2]; reflexivity.
Qed.


(** *** Mode detection *)

(** The single-chunk case of [_read_data] when both reads deliver. *)
Lemma _read_data_single_on (fuel : nat) (name : option string) (d : D)
    (op : bool) (to : option Z) (lg : list string) (tr : list Event) :
  List.length (fst (t_read to 4 d)) = 4%nat ->
  fst (t_read to (from_bytes_little (fst (t_read to 4 d)))
         (snd (t_read to 4 d))) <> [] ->
  _read_data fuel None name (engine_on d op to lg tr)
  = (Ok (fst (t_read to (from_bytes_little (fst (t_read to 4 d)))
                (snd (t_read to 4 d)))),
     engine_on
       (snd (t_read to (from_bytes_little (fst (t_read to 4 d)))
               (snd (t_read to 4 d))))
       op to lg
       (tr ++ [EvRead 4 (fst (t_read to 4 d));
               EvRead (from_bytes_little (fst (t_read to 4 d)))
                 (fst (t_read to (from_bytes_little (fst (t_read to 4 d)))
                         (snd (t_read to 4 d))))])).
Proof.
  intros H4 Hc. unfold _read_data, bind. cbn [expected_size_truthy].
  rewrite _get_size_read_data_on.
  destruct (fst (t_read to 4 d)) as [|b0 r] eqn:E; [discriminate|].
  cbn [bytes_falsy]. unfold struct_unpack_L. rewrite H4.
  change ((4 =? 4)%nat) with true. cbv iota.
  rewrite _read_chunk_on, (bytes_falsy_false _ Hc).
  unfold ret. rewrite <- app_assoc. reflexivity.
Qed.

(** On a line in binary mode, [detect_current_mode] writes the probe byte
    and the completing frame, reads the status and one chunk, and answers
    ["b"]. *)
Lemma detect_current_mode_binary (d : D) (op : bool) (to : option Z)
    (lg : list string) (tr : list Event) :
  binary_line to d ->
  detect_current_mode (engine_on d op to lg tr)
  = (Ok "b", engine_on (snd (probe_chunk to d)) op to lg
               (tr ++ probe_events to d)).
Proof.
  intros [Hw [Hst [H4 Hc]]].
  unfold detect_current_mode, bind at 1 2 3.
  cbn [serial_write time_sleep serial_in_waiting engine_on serial_instance
       dev is_open timeout logger io].
  rewrite Hw. change (negb (0 =? 0)) with false. cbv iota.
  unfold bind at 1.
  cbn [serial_write engine_on serial_instance dev is_open timeout logger io].
  change (mkOctowire (SerialPort (mkSerial ?d' op to)) lg ?tr')
    with (engine_on d' op to lg tr').
  unfold bind at 1.
  rewrite _read_response_code_on.
  change (t_write ([x00; x02] ++ repeat x00 10) (t_sleep 100 (t_write [x0a] d)))
    with (after_probe d).
  change (t_read to 1 (after_probe d)) with (probe_status to d).
  rewrite Hst, bytes_eqb_refl.
  unfold bind at 1.
  rewrite _read_data_single_on by assumption.
  unfold ret, probe_events. rewrite Hst, <- !app_assoc. reflexivity.
Qed.

(** On a line in binary mode [ensure_binary_mode] is one mode probe, and
    answers true. *)
Lemma ensure_binary_mode_on_binary_line (d : D) (op : bool) (to : option Z)
    (lg : list string) (tr : list Event) :
  binary_line to d ->
  ensure_binary_mode (engine_on d op to lg tr)
  = (Ok (Some true),
     engine_on (snd (probe_chunk to d)) op to lg (tr ++ probe_events to d)).
Proof.
  intros Hbin. unfold ensure_binary_mode.
  change is_connected_bound_method_truthy with true. cbv iota.
  unfold bind at 1. rewrite detect_current_mode_binary by exact Hbin.
  reflexivity.
Qed.

(** *** The connectivity check *)

(** Whenever the port is open and the version query comes back with
    [None], [is_connected] raises: the membership test is made on
    [None]. *)
Lemma is_connected_raises_without_version (d : D) (to : option Z)
    (lg : list string) (tr : list Event) (o' : Octowire D) :
  get_octowire_version (engine_on d true to lg tr) = (Ok None, o') ->
  is_connected (engine_on d true to lg tr)
  = (Raise (TypeError "argument of type 'NoneType' is not iterable"), o').
Proof.
  intros Hv. unfold is_connected, bind at 1 2.
  cbn [_is_serial_instance serial_is_open engine_on serial_instance is_open].
  unfold bind at 1.
  change (mkOctowire (SerialPort (mkSerial d true to)) lg tr)
    with (engine_on d true to lg tr).
  rewrite Hv. reflexivity.
Qed.

(** *** Construction of the driver *)

(** The range check of [GPIO.__init__] lets every integer through: it
    refuses a pin only when the pin is false as a condition and is neither
    0 nor 15, which no integer is. *)
Lemma gpio_pin_check_passes_every_int (pin : Z) :
  py_not (Some pin) && negb (py_in (Some pin) [Some 0; Some 15]) = false.
Proof.
  cbn. destruct (Z.eqb_spec pin 0); reflexivity.
Qed.

(** The pin it does refuse is [None], before anything is done on the
    line. *)
Lemma GPIO_init_refuses_None (h : handle D) :
  GPIO_init h None
  = (Raise (ValueError "gpio_pin parameter should be defined between 0 and 15."),
     Octowire_init h).
Proof. reflexivity. Qed.

(** With any integer pin, on a port whose device is in binary mode,
    construction succeeds. *)
Lemma GPIO_init_on_binary_line (d : D) (op : bool) (to : option Z) (pin : Z) :
  binary_line to d ->
  GPIO_init (SerialPort (mkSerial d op to)) (Some pin)
  = (Ok (mkGPIO (engine_on (snd (probe_chunk to d)) op to []
                   (probe_events to d))
           (Some pin) None None 0),
     engine_on (snd (probe_chunk to d)) op to [] (probe_events to d)).
Proof.
  intros Hbin. unfold GPIO_init.
  rewrite gpio_pin_check_passes_every_int.
  change (Octowire_init (SerialPort (mkSerial d op to)))
    with (engine_on d op to [] []).
  rewrite (ensure_binary_mode_on_binary_line d) by exact Hbin.
  reflexivity.
Qed.

End Properties.

(** ** Further properties of the engine and the driver *)

Section MoreProperties.

Context {D : Type} `{TD : Transport D}.

(** *** What a call leaves alone *)

Lemma only_reads_refl (o : Octowire D) : only_reads o o.
Proof. repeat split. Qed.

Lemma only_reads_trans (a b c : Octowire D) :
  only_reads a b -> only_reads b c -> only_reads a c.
Proof.
  intros [H1 [H2 [H3 H4]]] [K1 [K2 [K3 K4]]].
  repeat split; congruence.
Qed.

Lemma same_settings_refl (o : Octowire D) : same_settings o o.
Proof. repeat split. Qed.

Lemma same_settings_trans (a b c : Octowire D) :
  same_settings a b -> same_settings b c -> same_settings a c.
Proof.
  intros [H1 [H2 H3]] [K1 [K2 K3]]. repeat split; congruence.
Qed.

Lemma only_reads_same_settings (a b : Octowire D) :
  only_reads a b -> same_settings a b.
Proof. intros [H1 [H2 [H3 _]]]. repeat split; assumption. Qed.

Lemma keeps_bind {A B : Type} (R : Octowire D -> Octowire D -> Prop)
    (m : M (Octowire D) A) (k : A -> M (Octowire D) B) :
  (forall a b c, R a b -> R b c -> R a c) ->
  keeps R m -> (forall a, keeps R (k a)) -> keeps R (bind m k).
Proof.
  intros Htrans Hm Hk o. unfold bind.
  pose proof (Hm o) as H1.
  destruct (m o) as [[a| e |] o1]; cbn [snd] in *; try exact H1.
  exact (Htrans _ _ _ H1 (Hk a o1)).
Qed.

Lemma keeps_pure {A : Type} (R : Octowire D -> Octowire D -> Prop)
    (r : Result A) :
  (forall o, R o o) -> keeps R (lift_result r).
Proof. intros Hrefl o. apply Hrefl. Qed.

Lemma writes_app_read (tr : list Event) (n : Z) (got : bytes) :
  writes (tr ++ [EvRead n got]) = writes tr.
Proof. unfold writes. rewrite filter_app. cbn. apply app_nil_r. Qed.

Lemma serial_read_only_reads (n : Z) : keeps only_reads (serial_read n).
Proof.
  intros [[[d op to]|ty] lg tr]; [|apply only_reads_refl].
  unfold serial_read. cbn [serial_instance dev timeout is_open logger io].
  destruct (t_read to n d) as [got d'].
  repeat split. cbn [snd io]. apply writes_app_read.
Qed.

Lemma _get_size_read_data_only_reads (name : option string) :
  keeps only_reads (_get_size_read_data name).
Proof.
  unfold _get_size_read_data.
  apply keeps_bind; [exact only_reads_trans | apply serial_read_only_reads |].
  intros resp. destruct (bytes_falsy resp).
  - apply (keeps_pure only_reads (Raise _)), only_reads_refl.
  - apply keeps_pure, only_reads_refl.
Qed.

Lemma _read_chunk_only_reads (n : Z) (name : option string) :
  keeps only_reads (_read_chunk n name).
Proof.
  unfold _read_chunk.
  apply keeps_bind; [exact only_reads_trans | apply serial_read_only_reads |].
  intros chunk. destruct (bytes_falsy chunk).
  - apply (keeps_pure only_reads (Raise _)), only_reads_refl.
  - apply (keeps_pure only_reads (Ok _)), only_reads_refl.
Qed.

Lemma _read_data_loop_only_reads (name : option string) :
  forall (fuel : nat) (e : Z) (data : bytes),
    keeps only_reads (_read_data_loop fuel e data name).
Proof.
  induction fuel as [|fuel IH]; intros e data; cbn [_read_data_loop];
    destruct (e >? 0).
  - intros o. apply only_reads_refl.
  - apply (keeps_pure only_reads (Ok _)), only_reads_refl.
  - apply keeps_bind;
      [exact only_reads_trans | apply _get_size_read_data_only_reads |].
    intros n.
    apply keeps_bind;
      [exact only_reads_trans | apply _read_chunk_only_reads |].
    intros c. apply IH.
  - apply (keeps_pure only_reads (Ok _)), only_reads_refl.
Qed.

Lemma _read_data_keeps_only_reads (fuel : nat) (e : option Z)
    (name : option string) :
  keeps only_reads (_read_data fuel e name).
Proof.
  unfold _read_data. destruct (expected_size_truthy e).
  - apply _read_data_loop_only_reads.
  - apply keeps_bind;
      [exact only_reads_trans | apply _get_size_read_data_only_reads |].
    intros n.
    apply keeps_bind;
      [exact only_reads_trans | apply _read_chunk_only_reads |].
    intros c. apply (keeps_pure only_reads (Ok _)), only_reads_refl.
Qed.

(** X1. [_read_data] only reads: whatever the expected size, the fuel and
    the state of the object, and whether it returns or raises, it writes
    nothing to the line, logs nothing, and leaves the port's timeout and
    [is_open] as they were. *)
Theorem read_data_only_reads :
  forall (fuel : nat) (expected_size : option Z)
         (operation_name : option string) (o : Octowire D),
    let o' := snd (_read_data fuel expected_size operation_name o) in
    writes (io o') = writes (io o)
    /\ logger o' = logger o
    /\ port_timeout o' = port_timeout o
    /\ port_is_open o' = port_is_open o.
Proof.
  intros fuel e name o o'. subst o'.
  assert (H : keeps only_reads (_read_data fuel e name)).
  { unfold _read_data. destruct (expected_size_truthy e).
    - apply _read_data_loop_only_reads.
    - apply keeps_bind;
        [exact only_reads_trans | apply _get_size_read_data_only_reads |].
      intros n.
      apply keeps_bind;
        [exact only_reads_trans | apply _read_chunk_only_reads |].
      intros c. apply (keeps_pure only_reads (Ok _)), only_reads_refl. }
  destruct (H o) as [H1 [H2 [H3 H4]]]. auto.
Qed.

(** X2. When the expected size is absent, or is 0 (which the test
    [if expected_size:] takes for absent), [_read_data] reads one chunk
    and returns it: on a line that serves a chunk [c], the result is [c],
    two reads have been made, and whatever follows [c] is still on the
    line. *)
Theorem read_data_single_chunk :
  forall (fuel : nat) (expected_size : option Z)
         (operation_name : option string) (c : bytes)
         (d d' : D) (op : bool) (to : option Z) (lg : list string)
         (tr : list Event),
    expected_size = None \/ expected_size = Some 0 ->
    chunks_served to d [c] d' ->
    _read_data fuel expected_size operation_name (engine_on d op to lg tr)
    = (Ok c, engine_on d' op to lg (tr ++ chunk_events [c])).
Proof.
  intros fuel e name c d d' op to lg tr He Hs.
  assert (Hnone : _read_data fuel e name (engine_on d op to lg tr)
                  = _read_data fuel None name (engine_on d op to lg tr))
    by (destruct He as [-> | ->]; reflexivity).
  rewrite Hnone.
  inversion Hs as [|? d1 d2 ? ? ? Hc Hlen H4 Hn Hnil]; subst.
  inversion Hnil; subst.
  assert (E4 : fst (t_read to 4 d) = struct_pack_L (Z.of_nat (List.length c)))
    by (rewrite H4; reflexivity).
  assert (Hsz : from_bytes_little (struct_pack_L (Z.of_nat (List.length c)))
                = Z.of_nat (List.length c)).
  { pose proof (struct_unpack_pack_L (Z.of_nat (List.length c)) ltac:(lia)) as Hu.
    unfold struct_unpack_L in Hu. rewrite struct_pack_L_length in Hu.
    cbn [Nat.eqb] in Hu. congruence. }
  rewrite _read_data_single_on.
  - rewrite H4. cbn [fst snd]. rewrite Hsz, Hn. reflexivity.
  - rewrite E4. apply struct_pack_L_length.
  - rewrite H4. cbn [fst snd]. rewrite Hsz, Hn. exact Hc.
Qed.

(** X3. With a negative expected size [_read_data] returns empty data at
    once: the loop's test fails before the first turn, and the object,
    line included, is untouched. *)
Theorem read_data_negative_size :
  forall (fuel : nat) (expected_size : Z) (operation_name : option string)
         (o : Octowire D),
    expected_size < 0 ->
    _read_data fuel (Some expected_size) operation_name o = (Ok [], o).
Proof.
  intros fuel e name o He. unfold _read_data. cbn [expected_size_truthy].
  destruct (Z.eqb_spec e 0); [lia|]. cbn [negb].
  apply _read_data_loop_done. lia.
Qed.

(** *** Mode detection and switching *)

(** [detect_current_mode] on a port, up to the reading of the chunk. *)
Lemma detect_current_mode_on (d : D) (op : bool) (to : option Z)
    (lg : list string) (tr : list Event) :
  detect_current_mode (engine_on d op to lg tr)
  = if negb (t_in_waiting (probed d) =? 0) then
      (Ok "t", engine_on (snd (echo to d)) op to lg
                 (tr ++ text_probe_events to d))
    else if bytes_eqb (fst (probe_status to d)) [x00] then
      match _read_data 0 None (Some "Detect current mode")
              (engine_on (snd (probe_status to d)) op to lg
                 (tr ++ [EvWrite [x0a]; EvWrite probe_frame;
                         EvRead 1 (fst (probe_status to d))])) with
      | (Ok _, o') => (Ok "b", o')
      | (Raise e, o') => (Raise e, o')
      | (OutOfFuel, o') => (OutOfFuel, o')
      end
    else
      (Raise (Exception "Operation 'Detect current mode' returned an error."),
       engine_on (snd (probe_status to d)) op to lg
         (tr ++ [EvWrite [x0a]; EvWrite probe_frame;
                 EvRead 1 (fst (probe_status to d))])).
Proof.
  unfold detect_current_mode, bind at 1 2 3.
  cbn [serial_write time_sleep serial_in_waiting engine_on serial_instance
       dev is_open timeout logger io].
  change (t_sleep 100 (t_write [x0a] d)) with (probed d).
  destruct (negb (t_in_waiting (probed d) =? 0)).
  - unfold bind at 1 2.
    cbn [serial_in_waiting serial_instance dev is_open timeout logger io].
    change (mkOctowire (SerialPort (mkSerial ?d' op to)) lg ?tr')
      with (engine_on d' op to lg tr').
    rewrite serial_read_on. unfold ret, text_probe_events, echo.
    rewrite <- app_assoc. reflexivity.
  - unfold bind at 1.
    cbn [serial_write serial_instance dev is_open timeout logger io].
    change (mkOctowire (SerialPort (mkSerial ?d' op to)) lg ?tr')
      with (engine_on d' op to lg tr').
    unfold bind at 1. rewrite _read_response_code_on.
    change (t_write ([x00; x02] ++ repeat x00 10) (probed d))
      with (after_probe d).
    change (t_read to 1 (after_probe d)) with (probe_status to d).
    rewrite <- !app_assoc. cbn [app].
    destruct (bytes_eqb (fst (probe_status to d)) [x00]); [|reflexivity].
    unfold bind at 1.
    destruct (_read_data 0 None (Some "Detect current mode") _)
      as [[c| x |] o1]; reflexivity.
Qed.

Lemma _read_data_unknown_never_out_of_fuel (fuel : nat)
    (name : option string) (o : Octowire D) :
  fst (_read_data fuel None name o) <> OutOfFuel.
Proof.
  rewrite _read_data_unknown_size.
  pose proof (read_one_chunk_returns name o) as [H _].
  destruct (fst (read_one_chunk name o)) as [[n c]| e |];
    [discriminate | discriminate | congruence].
Qed.

Lemma same_settings_engine (d d' : D) (op : bool) (to : option Z)
    (lg : list string) (tr tr' : list Event) :
  same_settings (engine_on d op to lg tr) (engine_on d' op to lg tr').
Proof. repeat split. Qed.

(** Every outcome of [detect_current_mode]. *)
Lemma detect_current_mode_general (o : Octowire D) :
  same_settings o (snd (detect_current_mode o))
  /\ match fst (detect_current_mode o) with
     | Ok m => m = "t" \/ m = "b"
     | Raise _ => True
     | OutOfFuel => False
     end.
Proof.
  destruct o as [[[d op to]|ty] lg tr];
    [|split; [apply same_settings_refl | exact I]].
  change (mkOctowire (SerialPort (mkSerial d op to)) lg tr)
    with (engine_on d op to lg tr).
  rewrite detect_current_mode_on.
  destruct (negb (t_in_waiting (probed d) =? 0)).
  - split; [apply same_settings_engine | left; reflexivity].
  - destruct (bytes_eqb (fst (probe_status to d)) [x00]);
      [|split; [apply same_settings_engine | exact I]].
    set (o1 := engine_on (snd (probe_status to d)) op to lg _).
    pose proof (_read_data_keeps_only_reads 0 None
                  (Some "Detect current mode") o1) as Hk.
    apply only_reads_same_settings in Hk.
    pose proof (_read_data_unknown_never_out_of_fuel 0
                  (Some "Detect current mode") o1) as Hf.
    assert (H1 : same_settings (engine_on d op to lg tr) o1)
      by apply same_settings_engine.
    destruct (_read_data 0 None (Some "Detect current mode") o1)
      as [[c| x |] o2]; cbn [fst snd] in *.
    + split; [exact (same_settings_trans _ _ _ H1 Hk) | right; reflexivity].
    + split; [exact (same_settings_trans _ _ _ H1 Hk) | exact I].
    + congruence.
Qed.

Lemma detect_current_mode_text (d : D) (op : bool) (to : option Z)
    (lg : list string) (tr : list Event) :
  text_line d ->
  detect_current_mode (engine_on d op to lg tr)
  = (Ok "t", engine_on (snd (echo to d)) op to lg
               (tr ++ text_probe_events to d)).
Proof.
  intros Ht. rewrite detect_current_mode_on.
  destruct (Z.eqb_spec (t_in_waiting (probed d)) 0); [contradiction|].
  reflexivity.
Qed.

(** X4. On a line whose device is in text mode (the probe byte is echoed
    within 100 ms), [detect_current_mode] answers ["t"] after exactly one
    write, of the probe byte [0x0A], and one read, which drains exactly
    the bytes that were waiting; the completing frame is not sent. *)
Theorem detect_current_mode_text_mode :
  forall (d : D) (op : bool) (to : option Z) (lg : list string)
         (tr : list Event),
    text_line d ->
    detect_current_mode (engine_on d op to lg tr)
    = (Ok "t",
       engine_on (snd (t_read to (t_in_waiting (probed d)) (probed d)))
         op to lg
         (tr ++ [EvWrite [x0a];
                 EvRead (t_in_waiting (probed d))
                   (fst (t_read to (t_in_waiting (probed d)) (probed d)))])).
Proof.
  intros d op to lg tr Ht. exact (detect_current_mode_text d op to lg tr Ht).
Qed.

(** X5. Whatever the object and the line, [detect_current_mode] answers
    only ["t"] or ["b"] when it returns (it answers ["t"] exactly when
    bytes are waiting after the probe), and returning or raising it leaves
    the log and the port's timeout and [is_open] as they were. *)
Theorem detect_current_mode_outcomes :
  forall o : Octowire D,
    let out := detect_current_mode o in
    logger (snd out) = logger o
    /\ port_timeout (snd out) = port_timeout o
    /\ port_is_open (snd out) = port_is_open o
    /\ match fst out with
       | Ok m => m = "t" \/ m = "b"
       | Raise _ => True
       | OutOfFuel => False
       end
    /\ (forall d op to lg tr,
          o = engine_on d op to lg tr ->
          (fst out = Ok "t" <-> t_in_waiting (probed d) <> 0)).
Proof.
  intros o out. subst out.
  destruct (detect_current_mode_general o) as [[H1 [H2 H3]] H4].
  repeat (split; [assumption|]).
  intros d op to lg tr ->. rewrite detect_current_mode_on.
  destruct (Z.eqb_spec (t_in_waiting (probed d)) 0) as [E|E]; cbn [negb].
  - split; [|contradiction].
    destruct (bytes_eqb (fst (probe_status to d)) [x00]); [|discriminate].
    destruct (_read_data 0 None _ _) as [[c| x |] o1]; discriminate.
  - split; [intros _; exact E | reflexivity].
Qed.

(** [ensure_binary_mode] on a line in text mode, up to the second probe. *)
Lemma ensure_binary_mode_on_text_line (d : D) (op : bool) (to : option Z)
    (lg : list string) (tr : list Event) :
  text_line d ->
  ensure_binary_mode (engine_on d op to lg tr)
  = match detect_current_mode
            (engine_on (switched to d) op to lg (tr ++ switch_events to d)) with
    | (Ok m, o') =>
        if String.eqb m "b" then (Ok (Some true), o')
        else (Ok (Some false),
              mkOctowire (serial_instance o')
                (logger o' ++ ["Unable to switch the Octowire to binary mode."])
                (io o'))
    | (Raise e, o') => (Raise e, o')
    | (OutOfFuel, o') => (OutOfFuel, o')
    end.
Proof.
  intros Ht. unfold ensure_binary_mode.
  change is_connected_bound_method_truthy with true. cbv iota.
  unfold bind at 1. rewrite detect_current_mode_text by exact Ht.
  change (String.eqb "t" "t") with true. cbv iota.
  unfold bind at 1 2 3.
  cbn [serial_write time_sleep serial_in_waiting engine_on serial_instance
       dev is_open timeout logger io].
  change (mkOctowire (SerialPort (mkSerial ?d' op to)) lg ?tr')
    with (engine_on d' op to lg tr').
  unfold bind at 1. rewrite serial_read_on.
  change (t_sleep 1000 (t_write [x62; x69; x6e; x6d; x6f; x64; x65; x0a]
                          (snd (echo to d))))
    with (binmode_sent to d).
  change (t_read to (t_in_waiting (binmode_sent to d)) (binmode_sent to d))
    with (binmode_echo to d).
  change (snd (binmode_echo to d)) with (switched to d).
  replace ((tr ++ text_probe_events to d)
           ++ [EvWrite [x62; x69; x6e; x6d; x6f; x64; x65; x0a]])
    with (tr ++ text_probe_events to d ++ [EvWrite binmode_opcode])
    by (rewrite app_assoc; reflexivity).
  replace ((tr ++ text_probe_events to d ++ [EvWrite binmode_opcode])
           ++ [EvRead (t_in_waiting (binmode_sent to d))
                 (fst (binmode_echo to d))])
    with (tr ++ switch_events to d)
    by (unfold switch_events; rewrite <- !app_assoc; reflexivity).
  unfold bind at 1.
  destruct (detect_current_mode _) as [[m| x |] o1]; try reflexivity.
  destruct (String.eqb m "b"); reflexivity.
Qed.

(** X6. On a line in text mode, [ensure_binary_mode] drains the echo of
    the probe, writes ["binmode\n"], waits a second, drains what came
    back and probes again.  If the device is then in binary mode the call
    returns true and logs nothing; if it is still in text mode the call
    returns false and logs that the switch failed. *)
Theorem ensure_binary_mode_switches :
  forall (d : D) (op : bool) (to : option Z) (lg : list string)
         (tr : list Event),
    text_line d ->
    (binary_line to (switched to d) ->
       ensure_binary_mode (engine_on d op to lg tr)
       = (Ok (Some true),
          engine_on (snd (probe_chunk to (switched to d))) op to lg
            (tr ++ switch_events to d ++ probe_events to (switched to d))))
    /\ (text_line (switched to d) ->
          ensure_binary_mode (engine_on d op to lg tr)
          = (Ok (Some false),
             engine_on (snd (echo to (switched to d))) op to
               (lg ++ ["Unable to switch the Octowire to binary mode."])
               (tr ++ switch_events to d
                   ++ text_probe_events to (switched to d)))).
Proof.
  intros d op to lg tr Ht. split; intros H2;
    rewrite ensure_binary_mode_on_text_line by exact Ht.
  - rewrite detect_current_mode_binary by exact H2.
    rewrite <- app_assoc. reflexivity.
  - rewrite detect_current_mode_text by exact H2.
    rewrite <- app_assoc. reflexivity.
Qed.

(** [ensure_binary_mode] on a line where nothing is waiting after the
    probe. *)
Lemma ensure_binary_mode_not_text (d : D) (op : bool) (to : option Z)
    (lg : list string) (tr : list Event) :
  t_in_waiting (probed d) = 0 ->
  ensure_binary_mode (engine_on d op to lg tr)
  = match detect_current_mode (engine_on d op to lg tr) with
    | (Ok _, o') => (Ok (Some true), o')
    | (Raise x, o') => (Raise x, o')
    | (OutOfFuel, o') => (OutOfFuel, o')
    end.
Proof.
  intros E. unfold ensure_binary_mode.
  change is_connected_bound_method_truthy with true. cbv iota.
  unfold bind at 1. rewrite detect_current_mode_on, E.
  change (negb (0 =? 0)) with false. cbv iota.
  destruct (bytes_eqb (fst (probe_status to d)) [x00]); [|reflexivity].
  destruct (_read_data 0 None _ _) as [[c| x |] o1]; reflexivity.
Qed.

(** Every outcome of [ensure_binary_mode]. *)
Lemma ensure_binary_mode_general (o : Octowire D) :
  port_timeout (snd (ensure_binary_mode o)) = port_timeout o
  /\ port_is_open (snd (ensure_binary_mode o)) = port_is_open o
  /\ match fst (ensure_binary_mode o) with
     | Ok (Some true) => logger (snd (ensure_binary_mode o)) = logger o
     | Ok (Some false) =>
         logger (snd (ensure_binary_mode o))
         = logger o ++ ["Unable to switch the Octowire to binary mode."]
     | Ok None => False
     | Raise _ => logger (snd (ensure_binary_mode o)) = logger o
     | OutOfFuel => False
     end.
Proof.
  destruct o as [[[d op to]|ty] lg tr]; [|repeat split].
  change (mkOctowire (SerialPort (mkSerial d op to)) lg tr)
    with (engine_on d op to lg tr).
  destruct (Z.eq_dec (t_in_waiting (probed d)) 0) as [E|E].
  - rewrite ensure_binary_mode_not_text by exact E.
    pose proof (detect_current_mode_general (engine_on d op to lg tr))
      as [[H1 [H2 H3]] H4].
    destruct (detect_current_mode (engine_on d op to lg tr))
      as [[m| x |] o1]; cbn [fst snd] in *; auto.
  - rewrite ensure_binary_mode_on_text_line by exact E.
    pose proof (detect_current_mode_general
                  (engine_on (switched to d) op to lg (tr ++ switch_events to d)))
      as [[H1 [H2 H3]] H4].
    destruct (detect_current_mode _) as [[m| x |] o1]; cbn [fst snd] in *.
    + destruct H4 as [-> | ->]; cbn; rewrite ?H1; auto.
    + auto.
    + contradiction.
Qed.

(** C6 (amended). When a first call of [ensure_binary_mode] has returned
    true, however it got there (the device was in binary mode already, or
    was switched from text mode), and the device is in binary mode when
    the second call is made, the second call returns true as well, but not
    without touching the line: its outer check does no input or output (it
    only names [is_connected]), and the call then probes the mode again,
    writing the probe byte [0x0A] and the 12-byte completing frame and
    reading the status and one chunk.  It writes nothing else, logs
    nothing (the log is still the one before the first call), and leaves
    the port's timeout and [is_open] as they were. *)
Theorem ensure_binary_mode_reprobes :
  forall (o : Octowire D) (s1 : Serial D),
    let first := ensure_binary_mode o in
    let second := ensure_binary_mode (snd first) in
    fst first = Ok (Some true) ->
    serial_instance (snd first) = SerialPort s1 ->
    binary_line (timeout s1) (dev s1) ->
    fst second = Ok (Some true)
    /\ io (snd second)
       = io (snd first) ++ probe_events (timeout s1) (dev s1)
    /\ writes (probe_events (timeout s1) (dev s1))
       = [EvWrite [x0a]; EvWrite probe_frame]
    /\ List.length probe_frame = 12%nat
    /\ logger (snd second) = logger o
    /\ port_timeout (snd second) = port_timeout o
    /\ port_is_open (snd second) = port_is_open o.
Proof.
  intros o s1 first second Hfirst Hport Hbin. subst second first.
  destruct (ensure_binary_mode_general o) as [Hto [Hop Hlog]].
  rewrite Hfirst in Hlog.
  destruct (snd (ensure_binary_mode o)) as [h1 lg1 tr1] eqn:E1.
  cbn [serial_instance logger io] in *. subst h1.
  destruct s1 as [d1 op1 to1]. cbn [timeout dev] in *.
  change (mkOctowire (SerialPort (mkSerial d1 op1 to1)) lg1 tr1)
    with (engine_on d1 op1 to1 lg1 tr1) in *.
  rewrite (ensure_binary_mode_on_binary_line d1 op1 to1 lg1 tr1 Hbin).
  cbn [fst snd engine_on io logger].
  repeat split; assumption.
Qed.

(** X7. Whatever the object and the line, [ensure_binary_mode] returns
    true or false, never nothing; it logs exactly when it returns false
    (one message, that the switch failed); and returning or raising it
    leaves the port's timeout and [is_open] as they were. *)
Theorem ensure_binary_mode_outcomes :
  forall o : Octowire D,
    let out := ensure_binary_mode o in
    port_timeout (snd out) = port_timeout o
    /\ port_is_open (snd out) = port_is_open o
    /\ match fst out with
       | Ok (Some true) => logger (snd out) = logger o
       | Ok (Some false) =>
           logger (snd out)
           = logger o ++ ["Unable to switch the Octowire to binary mode."]
       | Ok None => False
       | Raise _ => logger (snd out) = logger o
       | OutOfFuel => False
       end.
Proof.
  intros o. exact (ensure_binary_mode_general o).
Qed.

(** *** Status, version and connectivity *)

Lemma octowire_status_is_valid_on (d : D) (op : bool) (to : option Z)
    (lg : list string) (tr : list Event) :
  octowire_status_is_valid (engine_on d op to lg tr)
  = match detect_current_mode (engine_on d op to lg tr) with
    | (Ok _, o') => (Ok true, o')
    | (Raise x, o') => (Raise x, o')
    | (OutOfFuel, o') => (OutOfFuel, o')
    end.
Proof.
  unfold octowire_status_is_valid, bind at 1.
  cbn [_is_serial_instance engine_on serial_instance].
  change (mkOctowire (SerialPort (mkSerial d op to)) lg tr)
    with (engine_on d op to lg tr).
  unfold bind.
  destruct (detect_current_mode (engine_on d op to lg tr)) as [[m| x |] o1];
    reflexivity.
Qed.

(** X8. [octowire_status_is_valid] never answers false on a serial port:
    it is true as soon as mode detection returns, in text mode as well as
    in binary mode, and otherwise raises what detection raised, logging
    nothing.  On a handle that is not a serial port it answers false,
    logs why, and does no input or output. *)
Theorem octowire_status_is_valid_outcomes :
  (forall (ty : string) (lg : list string) (tr : list Event),
      octowire_status_is_valid (mkOctowire (@NotSerial D ty) lg tr)
      = (Ok false,
         mkOctowire (NotSerial ty)
           (lg ++ ["The serial_instance parameter is not a valid Serial instance."])
           tr))
  /\ (forall (d : D) (op : bool) (to : option Z) (lg : list string)
             (tr : list Event),
        let out := octowire_status_is_valid (engine_on d op to lg tr) in
        fst out <> Ok false
        /\ logger (snd out) = lg
        /\ (fst out = Ok true
            <-> exists m, fst (detect_current_mode (engine_on d op to lg tr))
                          = Ok m)
        /\ (text_line d -> fst out = Ok true)).
Proof.
  split; [reflexivity|].
  intros d op to lg tr out. subst out.
  rewrite octowire_status_is_valid_on.
  pose proof (detect_current_mode_general (engine_on d op to lg tr))
    as [[H1 _] _].
  pose proof (detect_current_mode_text d op to lg tr) as Ht.
  destruct (detect_current_mode (engine_on d op to lg tr)) as [[m| x |] o1];
    cbn [fst snd] in *.
  - repeat split; try discriminate; try assumption; eauto.
  - repeat split; try discriminate; try assumption.
    + intros [m Hm]. discriminate.
    + intros H. specialize (Ht H). discriminate.
  - repeat split; try discriminate; try assumption.
    + intros [m Hm]. discriminate.
    + intros H. specialize (Ht H). discriminate.
Qed.

(** [get_octowire_version] on a port whose device answers two mode
    probes as a device in binary mode does: the version exchange that
    follows. *)
Lemma get_octowire_version_on_binary_line (d : D) (op : bool)
    (to : option Z) (lg : list string) (tr : list Event) :
  binary_line to d ->
  binary_line to (snd (probe_chunk to d)) ->
  let d1 := snd (probe_chunk to d) in
  let d2 := snd (probe_chunk to d1) in
  let pre := tr ++ probe_events to d ++ probe_events to d1
             ++ [EvWrite version_opcode; EvRead 1 (fst (version_status to d2))] in
  let sized := pre ++ [EvRead 4 (fst (version_size to d2))] in
  get_octowire_version (engine_on d op to lg tr)
  = if bytes_eqb (fst (version_status to d2)) [x00] then
      if from_bytes_little (fst (version_size to d2)) >? 0 then
        match struct_unpack_L (fst (version_size to d2)) with
        | Ok n =>
            (match bytes_decode (fst (t_read to n (snd (version_size to d2)))) with
             | Ok v => Ok (Some v)
             | Raise x => Raise x
             | OutOfFuel => OutOfFuel
             end,
             engine_on (snd (t_read to n (snd (version_size to d2)))) op to lg
               (sized ++ [EvRead n (fst (t_read to n (snd (version_size to d2))))]))
        | Raise x => (Raise x, engine_on (snd (version_size to d2)) op to lg sized)
        | OutOfFuel => (OutOfFuel, engine_on (snd (version_size to d2)) op to lg sized)
        end
      else
        (Ok None,
         engine_on (snd (version_size to d2)) op to
           (lg ++ ["Invalid version size returned by the Octowire."]) sized)
    else
      (Ok None,
       engine_on (snd (version_status to d2)) op to
         (lg ++ ["Error while trying to get Octowire version."]) pre).
Proof.
  intros Hb Hb1 d1 d2 pre sized.
  unfold get_octowire_version, bind at 1.
  unfold octowire_status_is_valid, bind at 1.
  cbn [_is_serial_instance engine_on serial_instance].
  change (mkOctowire (SerialPort (mkSerial d op to)) lg tr)
    with (engine_on d op to lg tr).
  unfold bind at 1. rewrite detect_current_mode_binary by exact Hb.
  cbn [ret]. cbv iota.
  unfold bind at 1. fold d1.
  rewrite detect_current_mode_binary by exact Hb1. fold d2.
  change (String.eqb "b" "t") with false. cbv iota.
  unfold bind at 1. cbn [ret].
  unfold bind at 1.
  cbn [serial_write engine_on serial_instance dev is_open timeout logger io].
  change (mkOctowire (SerialPort (mkSerial ?d' op to)) lg ?tr')
    with (engine_on d' op to lg tr').
  unfold bind at 1. rewrite serial_read_on.
  change (t_read to 1 (t_write [x00; x00; x02] d2))
    with (version_status to d2).
  replace ((((tr ++ probe_events to d) ++ probe_events to d1)
            ++ [EvWrite [x00; x00; x02]])
           ++ [EvRead 1 (fst (version_status to d2))])
    with pre by (subst pre; rewrite <- !app_assoc; reflexivity).
  destruct (bytes_eqb (fst (version_status to d2)) [x00]);
    [|reflexivity].
  unfold bind at 1. rewrite serial_read_on.
  change (t_read to 4 (snd (version_status to d2))) with (version_size to d2).
  fold sized.
  destruct (from_bytes_little (fst (version_size to d2)) >? 0);
    [|reflexivity].
  unfold bind at 1, lift_result at 1.
  destruct (struct_unpack_L (fst (version_size to d2))) as [n| x |];
    try reflexivity.
  unfold bind at 1. rewrite serial_read_on.
  unfold bind, lift_result, ret.
  destruct (bytes_decode _) as [v| x |]; reflexivity.
Qed.

(** X9. The version query on a port whose device is in binary mode.  The
    mode is probed twice before the version command [00 00 02] is written.
    Then: a status other than [0x00] gives [None] and a logged error; a
    size that reads as 0 gives [None] and another logged error; a 4-byte
    size [n > 0] followed by [n] bytes of valid UTF-8 gives the decoded
    text, with nothing logged; and a non-zero size read of fewer than 4
    bytes raises [struct.error]. *)
Theorem get_octowire_version_on_binary_device :
  forall (d : D) (op : bool) (to : option Z) (lg : list string)
         (tr : list Event),
    binary_line to d ->
    binary_line to (snd (probe_chunk to d)) ->
    let d2 := snd (probe_chunk to (snd (probe_chunk to d))) in
    let out := get_octowire_version (engine_on d op to lg tr) in
    writes (io (snd out))
    = writes tr ++ [EvWrite [x0a]; EvWrite probe_frame;
                    EvWrite [x0a]; EvWrite probe_frame;
                    EvWrite version_opcode]
    /\ (fst (version_status to d2) <> [x00] ->
        fst out = Ok None
        /\ logger (snd out)
           = lg ++ ["Error while trying to get Octowire version."])
    /\ (fst (version_status to d2) = [x00] ->
        from_bytes_little (fst (version_size to d2)) = 0 ->
        fst out = Ok None
        /\ logger (snd out)
           = lg ++ ["Invalid version size returned by the Octowire."])
    /\ (forall v : str,
          fst (version_status to d2) = [x00] ->
          List.length (fst (version_size to d2)) = 4%nat ->
          0 < from_bytes_little (fst (version_size to d2)) ->
          utf8_decode (fst (version_data to d2)) = Some v ->
          fst out = Ok (Some v) /\ logger (snd out) = lg)
    /\ (fst (version_status to d2) = [x00] ->
        List.length (fst (version_size to d2)) <> 4%nat ->
        0 < from_bytes_little (fst (version_size to d2)) ->
        exists msg, fst out = Raise (StructError msg)).
Proof.
  intros d op to lg tr Hb Hb1 d2 out. subst out.
  rewrite (get_octowire_version_on_binary_line d op to lg tr Hb Hb1).
  cbv zeta. fold d2.
  assert (Hw : forall rest,
             (forall e, In e rest -> is_write e = false) ->
             writes (tr ++ probe_events to d
                        ++ probe_events to (snd (probe_chunk to d))
                        ++ [EvWrite version_opcode;
                            EvRead 1 (fst (version_status to d2))] ++ rest)
             = writes tr ++ [EvWrite [x0a]; EvWrite probe_frame;
                             EvWrite [x0a]; EvWrite probe_frame;
                             EvWrite version_opcode]).
  { intros rest Hrest. unfold writes. rewrite !filter_app. cbn.
    f_equal. do 5 f_equal.
    induction rest as [|e rest IH]; [reflexivity|].
    cbn. rewrite (Hrest e (or_introl eq_refl)).
    apply IH. intros e' He'. apply Hrest. right. exact He'. }
  split.
  - destruct (bytes_eqb (fst (version_status to d2)) [x00]).
    + destruct (from_bytes_little (fst (version_size to d2)) >? 0).
      * destruct (struct_unpack_L (fst (version_size to d2))) as [n| x |];
          cbn [snd engine_on io]; rewrite <- !app_assoc;
          apply Hw; intros e He; cbn in He;
          repeat (destruct He as [<- | He]; [reflexivity|]); contradiction.
      * cbn [snd engine_on io]. rewrite <- !app_assoc.
        apply Hw; intros e He; cbn in He;
          repeat (destruct He as [<- | He]; [reflexivity|]); contradiction.
    + cbn [snd engine_on io].
      rewrite <- (app_nil_r [EvWrite version_opcode; _]).
      apply Hw. intros e [].
  - split; [|split; [|split]].
    + intros Hst. apply bytes_eqb_neq in Hst. rewrite Hst. split; reflexivity.
    + intros Hst H0. rewrite Hst, bytes_eqb_refl, H0. split; reflexivity.
    + intros v Hst H4 Hpos Hv. rewrite Hst, bytes_eqb_refl.
      destruct (Z.gtb_spec (from_bytes_little (fst (version_size to d2))) 0);
        [|lia].
      unfold struct_unpack_L. rewrite H4.
      change ((4 =? 4)%nat) with true. cbv iota.
      change (t_read to (from_bytes_little (fst (version_size to d2)))
                (snd (version_size to d2)))
        with (version_data to d2).
      unfold bytes_decode. rewrite Hv. split; reflexivity.
    + intros Hst H4 Hpos. rewrite Hst, bytes_eqb_refl.
      destruct (Z.gtb_spec (from_bytes_little (fst (version_size to d2))) 0);
        [|lia].
      unfold struct_unpack_L.
      destruct (Nat.eqb_spec (List.length (fst (version_size to d2))) 4);
        [contradiction|].
      eexists. reflexivity.
Qed.

(** X10. [is_connected] returns true exactly when the handle is a serial
    port that reports itself open and the version query, made on it,
    returns a text that contains ["Octowire"]; the object is then left as
    the version query left it. *)
Theorem is_connected_true_iff :
  forall o o' : Octowire D,
    is_connected o = (Ok true, o')
    <-> exists (d : D) (to : option Z) (lg : list string) (tr : list Event)
               (v : str),
          o = engine_on d true to lg tr
          /\ get_octowire_version o = (Ok (Some v), o')
          /\ str_contains (str_of_string "Octowire") v = true.
Proof.
  intros o o'. split.
  - destruct o as [[[d op to]|ty] lg tr]; [|cbn; discriminate].
    destruct op; [|cbn; discriminate].
    change (mkOctowire (SerialPort (mkSerial d true to)) lg tr)
      with (engine_on d true to lg tr).
    unfold is_connected, bind at 1 2.
    cbn [_is_serial_instance serial_is_open engine_on serial_instance is_open].
    unfold bind at 1.
    change (mkOctowire (SerialPort (mkSerial d true to)) lg tr)
      with (engine_on d true to lg tr).
    destruct (get_octowire_version (engine_on d true to lg tr))
      as [[[v|]| x |] o1] eqn:Ev; try discriminate.
    unfold bind, lift_result, py_in_str.
    destruct (str_contains (str_of_string "Octowire") v) eqn:Ec;
      [|cbn; discriminate].
    unfold ret. intros [= <-].
    exists d, to, lg, tr, v. auto.
  - intros [d [to [lg [tr [v [-> [Hv Hc]]]]]]].
    unfold is_connected, bind at 1 2.
    cbn [_is_serial_instance serial_is_open engine_on serial_instance is_open].
    unfold bind at 1.
    change (mkOctowire (SerialPort (mkSerial d true to)) lg tr)
      with (engine_on d true to lg tr).
    rewrite Hv. unfold bind, lift_result, py_in_str. rewrite Hc. reflexivity.
Qed.

(** X11. The three ways [is_connected] returns false, each with its
    logged message: the handle is not a serial port, or the port is not
    open (in both cases nothing is written or read), or the version text
    does not contain ["Octowire"]. *)
Theorem is_connected_false_paths :
  (forall (ty : string) (lg : list string) (tr : list Event),
      is_connected (mkOctowire (@NotSerial D ty) lg tr)
      = (Ok false,
         mkOctowire (NotSerial ty)
           (lg ++ [(ty ++ " is not a Serial instance.")%string]) tr))
  /\ (forall (d : D) (to : option Z) (lg : list string) (tr : list Event),
        is_connected (engine_on d false to lg tr)
        = (Ok false,
           engine_on d false to
             (lg ++ [("Serial port is a valid serial instance but"
                      ++ " no connection was detected.")%string]) tr))
  /\ (forall (d : D) (to : option Z) (lg : list string) (tr : list Event)
             (v : str) (o' : Octowire D),
        get_octowire_version (engine_on d true to lg tr) = (Ok (Some v), o') ->
        str_contains (str_of_string "Octowire") v = false ->
        is_connected (engine_on d true to lg tr)
        = (Ok false,
           mkOctowire (serial_instance o')
             (logger o' ++ ["Unable to get Octowire version..."]) (io o'))).
Proof.
  split; [reflexivity|]. split; [reflexivity|].
  intros d to lg tr v o' Hv Hc.
  unfold is_connected, bind at 1 2.
  cbn [_is_serial_instance serial_is_open engine_on serial_instance is_open].
  unfold bind at 1.
  change (mkOctowire (SerialPort (mkSerial d true to)) lg tr)
    with (engine_on d true to lg tr).
  rewrite Hv. unfold bind, lift_result, py_in_str. rewrite Hc. reflexivity.
Qed.

(** *** The commands of the driver *)

Ltac legal_argument :=
  repeat first
    [ progress change (negb (py_in (Some 0) [Some 0; Some 1])) with false
    | progress change (negb (py_in (Some 1) [Some 0; Some 1])) with false
    | progress change (negb (py_in (Some 0) [PULL_UP; PULL_DOWN; PULL_DISABLE])) with false
    | progress change (negb (py_in (Some 1) [PULL_UP; PULL_DOWN; PULL_DISABLE])) with false
    | progress change (negb (py_in None [PULL_UP; PULL_DOWN; PULL_DISABLE])) with false
    | progress change (py_eq (Some 0) (Some 0)) with true
    | progress change (py_eq (Some 0) (Some 1)) with false
    | progress change (py_eq (Some 1) (Some 0)) with false
    | progress change (py_eq (Some 1) (Some 1)) with true
    | progress change (0 =? 0) with true
    | progress change (1 =? 0) with false
    | progress change (1 =? 1) with true ];
  cbv iota.

Lemma pull_setter_invalid (v : Z) (g : GPIO D) :
  v <> 0 -> v <> 1 ->
  pull_setter (Some v) g
  = (Raise (ValueError ("Invalid pull value, the value should be 0 for pull-up,"
                        ++ " 1 for pull-down or None for pull disabled.")%string),
     g).
Proof.
  intros H0 H1. unfold pull_setter.
  assert (E : py_in (Some v) [PULL_UP; PULL_DOWN; PULL_DISABLE] = false).
  { cbn. destruct (Z.eqb_spec v 0); [contradiction|].
    destruct (Z.eqb_spec v 1); [contradiction|]. reflexivity. }
  rewrite E. reflexivity.
Qed.

(** A command either refuses its argument, or is one call of
    [_send_operation_code] followed, when that returns, by the update of
    one cached attribute. *)
Lemma run_command_general (c : command) (g : GPIO D) :
  (sent_operation c g = None
   /\ exists msg, run_command c g = (Raise (ValueError msg), g))
  \/ (exists (op : operation) (name : string),
        sent_operation c g = Some (op, name)
        /\ run_command c g
           = match _send_operation_code (operation_code op) (Some name) g with
             | (Ok _, g') => (Ok tt, apply_command c g g')
             | (Raise x, g') => (Raise x, g')
             | (OutOfFuel, g') => (OutOfFuel, g')
             end).
Proof.
  destruct c as [v | [v|] | v | ]; cbn [run_command sent_operation].
  - unfold int_choice.
    destruct (Z.eqb_spec v 0) as [->|H0];
      [|destruct (Z.eqb_spec v 1) as [->|H1]].
    + right. do 2 eexists. split; [reflexivity|].
      unfold direction_setter. legal_argument. unfold bind.
      cbn [operation_code].
      destruct (_send_operation_code _ _ g) as [[u| x |] g']; reflexivity.
    + right. do 2 eexists. split; [reflexivity|].
      unfold direction_setter. legal_argument. unfold bind.
      cbn [operation_code].
      destruct (_send_operation_code _ _ g) as [[u| x |] g']; reflexivity.
    + left. split; [reflexivity|]. eexists.
      apply direction_setter_invalid; assumption.
  - unfold int_choice.
    destruct (Z.eqb_spec v 0) as [->|H0];
      [|destruct (Z.eqb_spec v 1) as [->|H1]].
    + right. do 2 eexists. split; [reflexivity|].
      unfold pull_setter. legal_argument. unfold bind, ret.
      cbn [operation_code].
      destruct (_send_operation_code _ _ g) as [[u| x |] g']; reflexivity.
    + right. do 2 eexists. split; [reflexivity|].
      unfold pull_setter. legal_argument. unfold bind, ret.
      cbn [operation_code].
      destruct (_send_operation_code _ _ g) as [[u| x |] g']; reflexivity.
    + left. split; [reflexivity|]. eexists.
      apply pull_setter_invalid; assumption.
  - right. do 2 eexists. split; [reflexivity|].
    unfold pull_setter. legal_argument. unfold bind, ret.
    cbn [operation_code py_eq].
    destruct (_send_operation_code _ _ g) as [[u| x |] g']; reflexivity.
  - unfold int_choice.
    destruct (Z.eqb_spec v 0) as [->|H0];
      [|destruct (Z.eqb_spec v 1) as [->|H1]].
    + right. do 2 eexists. split; [reflexivity|].
      unfold status_setter. legal_argument.
      unfold _set_output_pin_low, bind. cbn [operation_code].
      destruct (_send_operation_code _ _ g) as [[u| x |] g']; reflexivity.
    + right. do 2 eexists. split; [reflexivity|].
      unfold status_setter. legal_argument.
      unfold _set_output_pin_high, bind. cbn [operation_code].
      destruct (_send_operation_code _ _ g) as [[u| x |] g']; reflexivity.
    + left. split; [reflexivity|]. eexists.
      apply status_setter_invalid; assumption.
  - right. unfold toggle.
    destruct (pin_status g =? 0) eqn:E.
    + do 2 eexists. split; [reflexivity|].
      unfold status_setter. legal_argument.
      unfold _set_output_pin_high, bind. cbn [operation_code].
      unfold apply_command. rewrite E.
      destruct (_send_operation_code _ _ g) as [[u| x |] g']; reflexivity.
    + do 2 eexists. split; [reflexivity|].
      unfold status_setter. legal_argument.
      unfold _set_output_pin_low, bind. cbn [operation_code].
      unfold apply_command. rewrite E.
      destruct (_send_operation_code _ _ g) as [[u| x |] g']; reflexivity.
Qed.

(** [_send_operation_code] never touches the pin or the cached
    attributes. *)
Lemma _send_operation_code_keeps_caches (opc : bytes)
    (name : option string) (g : GPIO D) :
  caches (snd (_send_operation_code opc name g)) = caches g
  /\ gpio_pin (snd (_send_operation_code opc name g)) = gpio_pin g.
Proof.
  destruct g as [o pin ds ps st].
  unfold _send_operation_code, bind, super.
  cbn [base gpio_pin direction_status pull_status pin_status].
  destruct (serial_getattr "write" o) as [[u| x |] o1];
    try (split; reflexivity).
  cbn [base gpio_pin direction_status pull_status pin_status].
  destruct (bytes_of_int_list1 pin) as [b| x |];
    try (split; reflexivity).
  cbn [base gpio_pin direction_status pull_status pin_status].
  destruct (serial_write _ o1) as [[u'| x |] o2];
    try (split; reflexivity).
  cbn [base gpio_pin direction_status pull_status pin_status].
  destruct (_read_response_code name false o2) as [[u''| x |] o3];
    split; reflexivity.
Qed.

(** X12. A command with a legal argument whose frame the device answers
    with the success status returns, having made exactly one write (its
    frame) and one read, and sets its cached attribute: the direction
    setter caches 1 for 0 and 0 for 1, the pull and status setters cache
    their argument, and [toggle] caches the status opposite to the one it
    found.  The pin and the other two cached attributes are unchanged. *)
Theorem successful_command_sets_cache :
  forall (c : command) (d : D) (opn : bool) (to : option Z)
         (lg : list string) (tr : list Event) (pin : Z) (ds ps : option Z)
         (st : Z) (op : operation) (name : string),
    0 <= pin < 256 ->
    let g := mkGPIO (engine_on d opn to lg tr) (Some pin) ds ps st in
    let frame := gpio_frame pin (operation_code op) in
    sent_operation c g = Some (op, name) ->
    status_reply to frame d = [x00] ->
    fst (run_command c g) = Ok tt
    /\ caches (snd (run_command c g)) = caches_after c g
    /\ gpio_pin (snd (run_command c g)) = Some pin
    /\ base (snd (run_command c g))
       = engine_on (snd (t_read to 1 (t_write frame d))) opn to lg
           (tr ++ [EvWrite frame; EvRead 1 [x00]]).
Proof.
  intros c d opn to lg tr pin ds ps st op name Hpin g frame Hsent Hok.
  destruct (run_command_general c g) as [[Hnone _] | [op' [name' [Hs Hrun]]]];
    [congruence|].
  rewrite Hsent in Hs. injection Hs as <- <-.
  rewrite Hrun. subst g.
  rewrite _send_operation_code_on by exact Hpin.
  fold frame. rewrite Hok, bytes_eqb_refl.
  destruct c as [v | v | v | ]; repeat split.
Qed.

(** X13. The pull and status setters refuse an integer other than 0 and 1
    with a [ValueError], before anything is sent: the driver, its line
    included, is exactly as it was. *)
Theorem pull_and_status_setters_refuse_other_values :
  forall (v : Z) (g : GPIO D),
    v <> 0 -> v <> 1 ->
    (exists msg, pull_setter (Some v) g = (Raise (ValueError msg), g))
    /\ (exists msg, status_setter v g = (Raise (ValueError msg), g)).
Proof.
  intros v g H0 H1. split; eexists.
  - apply pull_setter_invalid; assumption.
  - apply status_setter_invalid; assumption.
Qed.

(** X14. A command changes the cached attributes only when it returns:
    whatever makes it raise (a refused argument, a pin that is no byte, a
    handle that is no port, a failure status), the three cached
    attributes and the pin are what they were. *)
Theorem raising_command_keeps_caches :
  forall (c : command) (g : GPIO D) (x : exn),
    fst (run_command c g) = Raise x ->
    caches (snd (run_command c g)) = caches g
    /\ gpio_pin (snd (run_command c g)) = gpio_pin g.
Proof.
  intros c g x Hx.
  destruct (run_command_general c g) as [[_ [msg Hrun]] | [op [name [_ Hrun]]]].
  - rewrite Hrun. split; reflexivity.
  - rewrite Hrun in *.
    pose proof (_send_operation_code_keeps_caches (operation_code op)
                  (Some name) g) as Hk.
    destruct (_send_operation_code (operation_code op) (Some name) g)
      as [[u| y |] g']; cbn [fst snd] in *; [discriminate | exact Hk | discriminate].
Qed.

(** With a pin that does not fit a byte, [_send_operation_code] raises
    before it writes. *)
Lemma _send_operation_code_bad_pin (opc : bytes) (name : option string)
    (d : D) (op : bool) (to : option Z) (lg : list string) (tr : list Event)
    (pin : Z) (ds ps : option Z) (st : Z) :
  pin < 0 \/ 256 <= pin ->
  _send_operation_code opc name
    (mkGPIO (engine_on d op to lg tr) (Some pin) ds ps st)
  = (Raise (ValueError "bytes must be in range(0, 256)"),
     mkGPIO (engine_on d op to lg tr) (Some pin) ds ps st).
Proof.
  intros Hpin.
  assert (Hb : (0 <=? pin) && (pin <? 256) = false).
  { apply andb_false_iff. destruct Hpin; [left; apply Z.leb_gt | right; apply Z.ltb_ge]; lia. }
  unfold _send_operation_code, bind, super. cbn. rewrite Hb. reflexivity.
Qed.

(** X15. On a driver whose pin is an integer outside 0..255 (the
    constructor accepts such pins), every command with a legal argument
    raises [ValueError] when it builds its frame: nothing is written to
    the line and the driver is exactly as it was. *)
Theorem command_with_pin_out_of_byte_range :
  forall (c : command) (d : D) (opn : bool) (to : option Z)
         (lg : list string) (tr : list Event) (pin : Z) (ds ps : option Z)
         (st : Z) (op : operation) (name : string),
    pin < 0 \/ 256 <= pin ->
    let g := mkGPIO (engine_on d opn to lg tr) (Some pin) ds ps st in
    sent_operation c g = Some (op, name) ->
    run_command c g
    = (Raise (ValueError "bytes must be in range(0, 256)"), g).
Proof.
  intros c d opn to lg tr pin ds ps st op name Hpin g Hsent.
  destruct (run_command_general c g) as [[Hnone _] | [op' [name' [_ Hrun]]]];
    [congruence|].
  rewrite Hrun. subst g.
  rewrite _send_operation_code_bad_pin by exact Hpin. reflexivity.
Qed.

(** One [toggle()] answered with success. *)
Lemma toggle_on (d : D) (opn : bool) (to : option Z) (lg : list string)
    (tr : list Event) (pin : Z) (ds ps : option Z) (st : Z) :
  0 <= pin < 256 ->
  status_reply to (gpio_frame pin (toggle_operation st)) d = [x00] ->
  toggle (mkGPIO (engine_on d opn to lg tr) (Some pin) ds ps st)
  = (Ok tt,
     mkGPIO
       (engine_on
          (snd (t_read to 1 (t_write (gpio_frame pin (toggle_operation st)) d)))
          opn to lg
          (tr ++ [EvWrite (gpio_frame pin (toggle_operation st));
                  EvRead 1 [x00]]))
       (Some pin) ds ps (toggled st)).
Proof.
  intros Hpin Hok.
  set (g := mkGPIO (engine_on d opn to lg tr) (Some pin) ds ps st).
  change (toggle g) with (run_command Toggle g).
  destruct (run_command_general Toggle g) as [[Hnone _] | [op [name [Hs Hrun]]]].
  - cbn in Hnone. destruct (st =? 0); discriminate.
  - rewrite Hrun. subst g. cbn [sent_operation pin_status] in Hs.
    unfold toggle_operation, toggled in *.
    destruct (st =? 0) eqn:E; injection Hs as <- <-;
      cbn [operation_code];
      rewrite _send_operation_code_on by exact Hpin;
      rewrite Hok, bytes_eqb_refl;
      unfold apply_command; cbn [pin_status]; rewrite E; reflexivity.
Qed.

(** X16. [toggle()] called [n] times on a device that answers each frame
    with success: every call returns, the frames alternate between "set
    pin high" and "set pin low" starting from the one opposite to the
    cached status, and the cached status alternates with them, so that
    from a status of 0 or 1 it ends as it began after an even number of
    calls and flipped after an odd number. *)
Theorem toggle_times_alternates :
  forall (n : nat) (d : D) (opn : bool) (to : option Z) (lg : list string)
         (tr : list Event) (pin : Z) (ds ps : option Z) (st : Z),
    0 <= pin < 256 ->
    answers_toggles to pin n st d ->
    toggle_times n (mkGPIO (engine_on d opn to lg tr) (Some pin) ds ps st)
    = (Ok tt,
       mkGPIO (engine_on (after_toggles to pin n st d) opn to lg
                 (tr ++ toggle_events pin n st))
         (Some pin) ds ps (toggled_times n st))
    /\ (st = 0 \/ st = 1 ->
        toggled_times n st = if Nat.even n then st else 1 - st).
Proof.
  intros n d opn to lg tr pin ds ps st Hpin Hans. split.
  - revert d tr st Hans.
    induction n as [|n IH]; intros d tr st Hans.
    + cbn. rewrite app_nil_r. reflexivity.
    + destruct Hans as [Hok Hrest].
      cbn [toggle_times]. unfold bind.
      rewrite toggle_on by assumption.
      rewrite IH by exact Hrest.
      cbn [after_toggles toggle_events toggled_times].
      rewrite <- app_assoc. reflexivity.
  - intros Hst. clear Hans. revert st Hst.
    assert (Hstep : forall st, st = 0 \/ st = 1 ->
                      (toggled st = 0 \/ toggled st = 1) /\ toggled st = 1 - st)
      by (intros st0 [-> | ->]; cbn; auto).
    induction n as [|n IH]; intros st Hst; [reflexivity|].
    cbn [toggled_times].
    destruct (Hstep st Hst) as [Hst' Heq].
    rewrite (IH _ Hst'), Heq, Nat.even_succ, <- Nat.negb_even.
    destruct (Nat.even n); cbn [negb]; lia.
Qed.

(** X17. The driver's [read] never changes the pin or the cached
    attributes, whatever happens.  When the device answers the "read
    input pin" frame with the success status, the call returns what the
    next [read(1)] delivers, as it is, after one write and two reads. *)
Theorem read_returns_level :
  (forall g : GPIO D,
      caches (snd (read g)) = caches g
      /\ gpio_pin (snd (read g)) = gpio_pin g)
  /\ (forall (d : D) (opn : bool) (to : option Z) (lg : list string)
             (tr : list Event) (pin : Z) (ds ps : option Z) (st : Z),
        0 <= pin < 256 ->
        let frame := gpio_frame pin OPERATION_READ_PIN in
        let level := t_read to 1 (snd (t_read to 1 (t_write frame d))) in
        status_reply to frame d = [x00] ->
        read (mkGPIO (engine_on d opn to lg tr) (Some pin) ds ps st)
        = (Ok (fst level),
           mkGPIO (engine_on (snd level) opn to lg
                     (tr ++ [EvWrite frame; EvRead 1 [x00];
                             EvRead 1 (fst level)]))
             (Some pin) ds ps st)).
Proof.
  split.
  - intros g. unfold read, bind.
    pose proof (_send_operation_code_keeps_caches OPERATION_READ_PIN
                  (Some "GPIO read input pin") g) as Hk.
    destruct (_send_operation_code OPERATION_READ_PIN
                (Some "GPIO read input pin") g) as [[u| x |] g1];
      cbn [fst snd] in *; try exact Hk.
    unfold super. destruct (serial_read 1 (base g1)) as [r o2].
    cbn [snd]. exact Hk.
  - intros d opn to lg tr pin ds ps st Hpin frame level Hok.
    unfold read, bind. rewrite _send_operation_code_on by exact Hpin.
    fold frame. rewrite Hok, bytes_eqb_refl.
    unfold super. cbn [base gpio_pin direction_status pull_status pin_status].
    rewrite serial_read_on. fold level.
    rewrite <- app_assoc. reflexivity.
Qed.

(** *** Construction of the driver, continued *)

(** X18. Construction with an integer pin succeeds whenever binary mode
    can be ensured, whether the device is found in binary mode (one mode
    probe) or is found in text mode and switches (the switch, then one
    probe): the driver holds the pin given and starts with direction and
    pull unset, status 0 and an empty log. *)
Theorem GPIO_init_succeeds :
  forall (d : D) (op : bool) (to : option Z) (pin : Z),
    (binary_line to d ->
       GPIO_init (SerialPort (mkSerial d op to)) (Some pin)
       = (Ok (mkGPIO (engine_on (snd (probe_chunk to d)) op to []
                        (probe_events to d))
                (Some pin) None None 0),
          engine_on (snd (probe_chunk to d)) op to [] (probe_events to d)))
    /\ (text_line d ->
        binary_line to (switched to d) ->
        GPIO_init (SerialPort (mkSerial d op to)) (Some pin)
        = (Ok (mkGPIO (engine_on (snd (probe_chunk to (switched to d))) op to []
                         (switch_events to d ++ probe_events to (switched to d)))
                 (Some pin) None None 0),
           engine_on (snd (probe_chunk to (switched to d))) op to []
             (switch_events to d ++ probe_events to (switched to d)))).
Proof.
  intros d op to pin. split.
  - intros Hb. apply GPIO_init_on_binary_line. exact Hb.
  - intros Ht Hb. unfold GPIO_init.
    rewrite gpio_pin_check_passes_every_int.
    change (Octowire_init (SerialPort (mkSerial d op to)))
      with (engine_on d op to [] []).
    rewrite ensure_binary_mode_on_text_line by exact Ht.
    rewrite detect_current_mode_binary by exact Hb.
    reflexivity.
Qed.


End MoreProperties.

(** ** The properties on the in-memory line *)

(** The in-memory line keeps pyserial's contract. *)
Lemma mock_read_bounded : @read_bounded Mock MockTransport.
Proof.
  intros to n d. cbn. rewrite length_firstn. apply Nat.le_min_l.
Qed.

Lemma mock_serves_two (a b : bytes) :
  a <> [] -> b <> [] ->
  Z.of_nat (List.length a) < 2 ^ 32 -> Z.of_nat (List.length b) < 2 ^ 32 ->
  chunks_served (Some 1000) (mkMock (on_the_wire a ++ on_the_wire b) [])
    [a; b] (mkMock [] []).
Proof.
  intros Ha Hb Hla Hlb.
  assert (Hf : forall (x rest : bytes),
             firstn (List.length x) (x ++ rest) = x
             /\ skipn (List.length x) (x ++ rest) = rest).
  { intros x rest. split.
    - rewrite firstn_app, Nat.sub_diag, firstn_all. cbn. apply app_nil_r.
    - rewrite skipn_app, Nat.sub_diag, skipn_all. reflexivity. }
  eapply served_cons with (d1 := mkMock (a ++ on_the_wire b) [])
                          (d2 := mkMock (on_the_wire b) []);
    [exact Ha | exact Hla | reflexivity | |].
  - cbn. unfold mock_read. cbn [inbuf replies]. rewrite Nat2Z.id.
    rewrite (proj1 (Hf a _)), (proj2 (Hf a _)). reflexivity.
  - eapply served_cons with (d1 := mkMock b []) (d2 := mkMock [] []);
      [exact Hb | exact Hlb | | | constructor].
    + cbn. unfold mock_read, on_the_wire. cbn [inbuf replies app firstn skipn].
      reflexivity.
    + cbn. unfold mock_read. cbn [inbuf replies]. rewrite Nat2Z.id.
      rewrite firstn_all, skipn_all. reflexivity.
Qed.

(** C1, the two cases the specification names: with [expected_size = 10],
    chunks of 4 and 6 bytes give their 10 bytes, and chunks of 4 and 8
    bytes give all 12. *)
Lemma read_data_returns_concatenation_witness :
  _read_data 10 (Some 10) None
    (receiving (on_the_wire chunk4 ++ on_the_wire chunk6))
  = (Ok (chunk4 ++ chunk6),
     engine_on (mkMock [] []) true (Some 1000) []
       (chunk_events [chunk4; chunk6]))
  /\ _read_data 10 (Some 10) None
       (receiving (on_the_wire chunk4 ++ on_the_wire chunk8))
     = (Ok (chunk4 ++ chunk8),
        engine_on (mkMock [] []) true (Some 1000) []
          (chunk_events [chunk4; chunk8])).
Proof.
  split.
  - apply (read_data_returns_concatenation 10 [chunk4] chunk6 10 None
             (mkMock (on_the_wire chunk4 ++ on_the_wire chunk6) [])
             (mkMock [] []) true (Some 1000) [] []).
    + lia.
    + apply mock_serves_two; try discriminate; reflexivity.
    + split; vm_compute; [reflexivity | discriminate].
    + vm_compute. apply le_n.
  - apply (read_data_returns_concatenation 10 [chunk4] chunk8 10 None
             (mkMock (on_the_wire chunk4 ++ on_the_wire chunk8) [])
             (mkMock [] []) true (Some 1000) [] []).
    + lia.
    + apply mock_serves_two; try discriminate; reflexivity.
    + split; vm_compute; [reflexivity | discriminate].
    + vm_compute. apply le_n.
Defined.

(** C2 on the in-memory line: the device answers [0x01] to "set output". *)
Lemma failed_command_raises_and_keeps_caches_witness :
  fst (run_command (SetDirection 0) (gpio3 [x01]))
  = Raise (Exception "Operation 'set GPIO pin as output' returned an error.")
  /\ caches (snd (run_command (SetDirection 0) (gpio3 [x01])))
     = caches (gpio3 [x01]).
Proof.
  apply (failed_command_raises_and_keeps_caches (SetDirection 0)
           (mkMock [] [[x01]]) true (Some 1000) [] [] 3 None None 0
           OpOutput "set GPIO pin as output").
  - lia.
  - reflexivity.
  - vm_compute. discriminate.
Defined.

(** C3 as stated fails: on pin 3 the "set output" frame carries the pin
    before the operation code, not after it. *)
Lemma send_operation_code_frame_counterexample :
  let sent :=
    written (io (base (snd (_send_operation_code OPERATION_OUTPUT None
                              (gpio3 [x00]))))) in
  sent = [x02; x00; x08; x03; x01]
  /\ gpio_frame_as_specified 3 OPERATION_OUTPUT = [x02; x00; x08; x01; x03]
  /\ sent <> gpio_frame_as_specified 3 OPERATION_OUTPUT.
Proof.
  vm_compute. repeat split. discriminate.
Qed.

(** C3 (amended) on the in-memory line, pin 3, "set output". *)
Lemma send_operation_code_frame_witness :
  exists (code : byte) (args : bytes) (reply : bytes),
    operation_code OpOutput = [code]
    /\ args = [byte_of_Z 3; code]
    /\ Z_of_byte (byte_of_Z 3) = 3
    /\ io (base (snd (_send_operation_code (operation_code OpOutput) None
                        (gpio3 [x00]))))
       = io (base (gpio3 [x00]))
         ++ [EvWrite (struct_pack_H (Z.of_nat (List.length args))
                       ++ [x08] ++ args);
             EvRead 1 reply]
    /\ struct_pack_H (Z.of_nat (List.length args)) = [x02; x00].
Proof.
  exact (send_operation_code_frame OpOutput None
           (mkMock [] [[x00]]) true (Some 1000) [] [] 3 None None 0
           ltac:(lia)).
Defined.

(** C4, at the failing inputs: pins 16 and -1 pass the range check, the
    mode is negotiated on the line, and a driver is built. *)
Theorem gpio_init_accepts_out_of_range_pin :
  let built (pin : Z) :=
    GPIO_init (mock_port [] [[]; probe_reply]) (Some pin) in
  (exists g, fst (built 16) = Ok g /\ gpio_pin g = Some 16)
  /\ written (io (snd (built 16))) = x0a :: probe_frame
  /\ (exists g, fst (built (-1)) = Ok g /\ gpio_pin g = Some (-1))
  /\ written (io (snd (built (-1)))) = x0a :: probe_frame.
Proof.
  cbv zeta. repeat split; try (eexists; split; reflexivity); reflexivity.
Qed.

(** C5, at the failing input: an open port, a device in binary mode that
    answers the version command with status [0x01].  The version comes
    back as [None], and [is_connected] raises instead of returning
    false. *)
Theorem is_connected_raises_on_version_failure :
  let o := Octowire_init
             (mock_port [] [[]; probe_reply; []; probe_reply; [x01]]) in
  fst (get_octowire_version o) = Ok None
  /\ fst (is_connected o)
     = Raise (TypeError "argument of type 'NoneType' is not iterable").
Proof.
  cbv zeta. split; reflexivity.
Qed.

(** C6 as stated fails: after a first call that succeeded on a device in
    binary mode, the second call succeeds too, and has made two more
    writes on the line. *)
Lemma ensure_binary_mode_counterexample :
  let o := Octowire_init
             (mock_port [] [[]; probe_reply; []; probe_reply]) in
  let first := ensure_binary_mode o in
  let second := ensure_binary_mode (snd first) in
  fst first = Ok (Some true)
  /\ fst second = Ok (Some true)
  /\ writes (io (snd first)) = [EvWrite [x0a]; EvWrite probe_frame]
  /\ writes (io (snd second))
     = [EvWrite [x0a]; EvWrite probe_frame; EvWrite [x0a]; EvWrite probe_frame]
  /\ writes (io (snd second)) <> writes (io (snd first)).
Proof.
  vm_compute. repeat split. discriminate.
Qed.

(** A mock device that answers the next probe is in binary mode. *)
Lemma mock_binary_line (rest : list bytes) :
  binary_line (Some 1000) (mkMock [] ([] :: probe_reply :: rest)).
Proof.
  repeat split. cbn. discriminate.
Qed.

(** C6 (amended) on the in-memory line: two calls in a row, on a device
    that the first call switches from text mode, and on a device that was
    in binary mode from the start. *)
Lemma ensure_binary_mode_reprobes_witness :
  (let d := mkMock [] [text_echo; binmode_opcode; []; probe_reply;
                       []; probe_reply] in
   let first := ensure_binary_mode (engine_on d true (Some 1000) [] []) in
   let second := ensure_binary_mode (snd first) in
   fst first = Ok (Some true)
   /\ fst second = Ok (Some true)
   /\ io (snd second)
      = io (snd first)
        ++ probe_events (Some 1000) (mkMock [] [[]; probe_reply])
   /\ writes (probe_events (Some 1000) (mkMock [] [[]; probe_reply]))
      = [EvWrite [x0a]; EvWrite probe_frame]
   /\ List.length probe_frame = 12%nat
   /\ logger (snd second) = []
   /\ port_timeout (snd second) = Some (Some 1000)
   /\ port_is_open (snd second) = Some true)
  /\ (let d := mkMock [] [[]; probe_reply; []; probe_reply] in
      let first := ensure_binary_mode (engine_on d true (Some 1000) [] []) in
      let second := ensure_binary_mode (snd first) in
      fst first = Ok (Some true)
      /\ fst second = Ok (Some true)
      /\ io (snd second)
         = io (snd first)
           ++ probe_events (Some 1000) (mkMock [] [[]; probe_reply])
      /\ logger (snd second) = []).
Proof.
  split.
  - assert (Hfirst :
      fst (ensure_binary_mode
             (engine_on (mkMock [] [text_echo; binmode_opcode; [];
                                    probe_reply; []; probe_reply])
                true (Some 1000) [] []))
      = Ok (Some true)) by (vm_compute; reflexivity).
    split; [exact Hfirst|].
    exact (ensure_binary_mode_reprobes
             (engine_on (mkMock [] [text_echo; binmode_opcode; [];
                                    probe_reply; []; probe_reply])
                true (Some 1000) [] [])
             (mkSerial (mkMock [] [[]; probe_reply]) true (Some 1000))
             Hfirst eq_refl (mock_binary_line [])).
  - assert (Hfirst :
      fst (ensure_binary_mode
             (engine_on (mkMock [] [[]; probe_reply; []; probe_reply])
                true (Some 1000) [] []))
      = Ok (Some true)) by (vm_compute; reflexivity).
    destruct (ensure_binary_mode_reprobes
                (engine_on (mkMock [] [[]; probe_reply; []; probe_reply])
                   true (Some 1000) [] [])
                (mkSerial (mkMock [] [[]; probe_reply]) true (Some 1000))
                Hfirst eq_refl (mock_binary_line []))
      as [H1 [H2 [_ [_ [H3 _]]]]].
    split; [exact Hfirst|]. split; [exact H1|]. split; [exact H2 | exact H3].
Defined.



(** C8 on the in-memory line, pin 3. *)
Lemma direction_setter_inverts_witness :
  (fst (direction_setter 0 (gpio3 [x00])) = Ok tt
   /\ direction_status (snd (direction_setter 0 (gpio3 [x00]))) = Some 1)
  /\ (fst (direction_setter 1 (gpio3 [x00])) = Ok tt
      /\ direction_status (snd (direction_setter 1 (gpio3 [x00]))) = Some 0)
  /\ (exists msg,
        direction_setter 2 (gpio3 [x00]) = (Raise (ValueError msg), gpio3 [x00])).
Proof.
  destruct (direction_setter_inverts (mkMock [] [[x00]]) true (Some 1000)
              [] [] 3 None None 0 ltac:(lia)) as [H0 [H1 H2]].
  split; [apply H0; reflexivity|].
  split; [apply H1; reflexivity|].
  apply (H2 2 (gpio3 [x00])); discriminate.
Defined.

(** C10 on the in-memory line: a stream whose first chunk declares size
    0. *)
Lemma read_data_terminates_witness :
  let o := receiving [x00; x00; x00; x00; x2a] in
  let out := _read_data 10 (Some 10) None o in
  fst out <> OutOfFuel
  /\ out = _read_data (Z.to_nat 10) (Some 10) None o
  /\ (exists tr, io (snd out) = io o ++ tr
                 /\ (List.length tr <= 2 * Z.to_nat 10)%nat)
  /\ fst out = Raise (Exception (no_data_message None)).
Proof.
  destruct (read_data_terminates mock_read_bounded 10 None ltac:(lia))
    as [_ H].
  destruct (H 10%nat (receiving [x00; x00; x00; x00; x2a])
              ltac:(vm_compute; apply le_n)) as [H1 [H2 [H3 H4]]].
  split; [exact H1|]. split; [exact H2|]. split; [exact H3|].
  apply (H4 (mkMock [x00; x00; x00; x00; x2a] []) true (Some 1000) [] [] eq_refl).
  reflexivity.
Defined.

(** ** The further properties on the in-memory line *)

Lemma mock_text_line (rest : list bytes) :
  text_line (mkMock [] (text_echo :: rest)).
Proof. unfold text_line. cbn. discriminate. Qed.

(** X2 on the in-memory line: with no expected size, and with an expected
    size of 0, the first of two chunks is returned and the second stays on
    the line. *)
Lemma read_data_single_chunk_witness :
  _read_data 0 None None
    (receiving (on_the_wire chunk4 ++ on_the_wire chunk6))
  = (Ok chunk4,
     engine_on (mkMock (on_the_wire chunk6) []) true (Some 1000) []
       (chunk_events [chunk4]))
  /\ _read_data 7 (Some 0) None
       (receiving (on_the_wire chunk4 ++ on_the_wire chunk6))
     = (Ok chunk4,
        engine_on (mkMock (on_the_wire chunk6) []) true (Some 1000) []
          (chunk_events [chunk4])).
Proof.
  assert (Hs : chunks_served (Some 1000)
                 (mkMock (on_the_wire chunk4 ++ on_the_wire chunk6) [])
                 [chunk4] (mkMock (on_the_wire chunk6) [])).
  { eapply served_cons with (d1 := mkMock (chunk4 ++ on_the_wire chunk6) []);
      [discriminate | reflexivity | reflexivity | reflexivity | constructor]. }
  split.
  - exact (read_data_single_chunk 0 None None chunk4 _ _ true (Some 1000) [] []
             (or_introl eq_refl) Hs).
  - exact (read_data_single_chunk 7 (Some 0) None chunk4 _ _ true (Some 1000)
             [] [] (or_intror eq_refl) Hs).
Defined.

(** X3 on the in-memory line. *)
Lemma read_data_negative_size_witness :
  _read_data 5 (Some (-3)) None (receiving (on_the_wire chunk4))
  = (Ok [], receiving (on_the_wire chunk4)).
Proof.
  apply (read_data_negative_size 5 (-3) None). lia.
Defined.

(** X4 on the in-memory line: a device that echoes four bytes. *)
Lemma detect_current_mode_text_mode_witness :
  detect_current_mode (engine_on (mkMock [] [text_echo]) true (Some 1000) [] [])
  = (Ok "t",
     engine_on (mkMock [] []) true (Some 1000) []
       [EvWrite [x0a]; EvRead 4 text_echo]).
Proof.
  exact (detect_current_mode_text_mode (mkMock [] [text_echo]) true
           (Some 1000) [] [] (mock_text_line [])).
Defined.

(** X6 on the in-memory line: a device that switches, and one that does
    not. *)
Lemma ensure_binary_mode_switches_witness :
  (let out := ensure_binary_mode
                (engine_on switching_device true (Some 1000) [] []) in
   fst out = Ok (Some true)
   /\ logger (snd out) = []
   /\ written (io (snd out)) = x0a :: binmode_opcode ++ x0a :: probe_frame)
  /\ (let out := ensure_binary_mode
                   (engine_on stuck_device true (Some 1000) [] []) in
      fst out = Ok (Some false)
      /\ logger (snd out) = ["Unable to switch the Octowire to binary mode."]
      /\ written (io (snd out)) = x0a :: binmode_opcode ++ [x0a]).
Proof.
  split.
  - destruct (ensure_binary_mode_switches switching_device true (Some 1000)
                [] [] (mock_text_line _)) as [H _].
    rewrite (H (mock_binary_line [])). repeat split.
  - destruct (ensure_binary_mode_switches stuck_device true (Some 1000)
                [] [] (mock_text_line _)) as [_ H].
    rewrite (H (mock_text_line [])). repeat split.
Defined.

(** X8 on the in-memory line: a device in text mode counts as valid. *)
Lemma octowire_status_is_valid_outcomes_witness :
  fst (octowire_status_is_valid
         (engine_on (mkMock [] [text_echo]) true (Some 1000) [] []))
  = Ok true.
Proof.
  destruct (@octowire_status_is_valid_outcomes Mock MockTransport) as [_ H].
  destruct (H (mkMock [] [text_echo]) true (Some 1000) [] [])
    as [_ [_ [_ Ht]]].
  apply Ht. apply mock_text_line.
Defined.

(** X9 on the in-memory line: a device that answers ["Octowire v1"], and
    one that answers the version command with status [0x01]. *)
Lemma get_octowire_version_on_binary_device_witness :
  (let out := get_octowire_version
                (engine_on (versioned_device version_reply) true (Some 1000)
                   [] []) in
   fst out = Ok (Some (str_of_string "Octowire v1"))
   /\ logger (snd out) = []
   /\ writes (io (snd out))
      = [EvWrite [x0a]; EvWrite probe_frame; EvWrite [x0a]; EvWrite probe_frame;
         EvWrite version_opcode])
  /\ (let out := get_octowire_version
                   (engine_on (versioned_device [x01]) true (Some 1000)
                      [] []) in
      fst out = Ok None
      /\ logger (snd out) = ["Error while trying to get Octowire version."]).
Proof.
  split.
  - destruct (get_octowire_version_on_binary_device
                (versioned_device version_reply) true (Some 1000) [] []
                (mock_binary_line _) (mock_binary_line _))
      as [Hw [_ [_ [H _]]]].
    destruct (H (str_of_string "Octowire v1")) as [H1 H2];
      try reflexivity.
    split; [exact H1|]. split; [exact H2 | exact Hw].
  - destruct (get_octowire_version_on_binary_device
                (versioned_device [x01]) true (Some 1000) [] []
                (mock_binary_line _) (mock_binary_line _))
      as [_ [H _]].
    apply H. cbn. discriminate.
Defined.

(** X11 on the in-memory line: a device whose version text is ["abc"]. *)
Lemma is_connected_false_paths_witness :
  let out := is_connected
               (engine_on (versioned_device other_version_reply) true
                  (Some 1000) [] []) in
  fst out = Ok false
  /\ logger (snd out) = ["Unable to get Octowire version..."].
Proof.
  destruct (@is_connected_false_paths Mock MockTransport) as [_ [_ H]].
  cbv zeta.
  set (o := engine_on (versioned_device other_version_reply) true
              (Some 1000) [] []).
  assert (Hv : get_octowire_version o
               = (Ok (Some (str_of_string "abc")),
                  snd (get_octowire_version o)))
    by (vm_compute; reflexivity).
  subst o.
  rewrite (H _ _ _ _ _ _ Hv) by (vm_compute; reflexivity).
  vm_compute. split; reflexivity.
Defined.

(** X12 on the in-memory line: disabling the pull resistor. *)
Lemma successful_command_sets_cache_witness :
  let g := mkGPIO (engine_on (mkMock [] [[x00]]) true (Some 1000) [] [])
             (Some 3) (Some 1) (Some 0) 1 in
  fst (run_command (SetPull None) g) = Ok tt
  /\ caches (snd (run_command (SetPull None) g)) = (Some 1, None, 1)
  /\ gpio_pin (snd (run_command (SetPull None) g)) = Some 3
  /\ base (snd (run_command (SetPull None) g))
     = engine_on (mkMock [] []) true (Some 1000) []
         [EvWrite [x02; x00; x08; x03; x05]; EvRead 1 [x00]].
Proof.
  exact (successful_command_sets_cache (SetPull None) (mkMock [] [[x00]]) true
           (Some 1000) [] [] 3 (Some 1) (Some 0) 1 OpDeactivatePull
           "GPIO pull disable" ltac:(lia) eq_refl eq_refl).
Defined.

(** X13 at the value 2. *)
Lemma pull_and_status_setters_refuse_other_values_witness :
  (exists msg,
      pull_setter (Some 2) (gpio3 [x00]) = (Raise (ValueError msg), gpio3 [x00]))
  /\ (exists msg,
        status_setter 2 (gpio3 [x00]) = (Raise (ValueError msg), gpio3 [x00])).
Proof.
  apply (pull_and_status_setters_refuse_other_values 2 (gpio3 [x00]));
    discriminate.
Defined.

(** X14 on the in-memory line: "pull down" answered with [0x01]. *)
Lemma raising_command_keeps_caches_witness :
  caches (snd (run_command (SetPull (Some 1)) (gpio3 [x01])))
  = caches (gpio3 [x01])
  /\ gpio_pin (snd (run_command (SetPull (Some 1)) (gpio3 [x01])))
     = gpio_pin (gpio3 [x01]).
Proof.
  apply (raising_command_keeps_caches (SetPull (Some 1)) (gpio3 [x01])
           (Exception "Operation 'GPIO set pull-down' returned an error.")).
  reflexivity.
Defined.

(** X15 on the in-memory line: a driver holding pin 300. *)
Lemma command_with_pin_out_of_byte_range_witness :
  let g := mkGPIO (engine_on (mkMock [] [[x00]]) true (Some 1000) [] [])
             (Some 300) None None 0 in
  run_command Toggle g
  = (Raise (ValueError "bytes must be in range(0, 256)"), g).
Proof.
  exact (command_with_pin_out_of_byte_range Toggle (mkMock [] [[x00]]) true
           (Some 1000) [] [] 300 None None 0 OpSetPinHigh
           "Set GPIO pin to high" ltac:(lia) eq_refl).
Defined.

(** X16 on the in-memory line: three toggles from status 0. *)
Lemma toggle_times_alternates_witness :
  let g := mkGPIO (engine_on (mkMock [] [[x00]; [x00]; [x00]]) true
                     (Some 1000) [] [])
             (Some 3) None None 0 in
  fst (toggle_times 3 g) = Ok tt
  /\ pin_status (snd (toggle_times 3 g)) = 1
  /\ written (io (base (snd (toggle_times 3 g))))
     = [x02; x00; x08; x03; x06] ++ [x02; x00; x08; x03; x07]
       ++ [x02; x00; x08; x03; x06].
Proof.
  destruct (toggle_times_alternates 3 (mkMock [] [[x00]; [x00]; [x00]]) true
              (Some 1000) [] [] 3 None None 0 ltac:(lia))
    as [H _].
  - repeat split.
  - cbv zeta. rewrite H. repeat split.
Defined.

(** X17 on the in-memory line: the device answers status [0x00] and level
    [0x01]. *)
Lemma read_returns_level_witness :
  read (gpio3 [x00; x01])
  = (Ok [x01],
     mkGPIO (engine_on (mkMock [] []) true (Some 1000) []
               [EvWrite [x02; x00; x08; x03; x08]; EvRead 1 [x00];
                EvRead 1 [x01]])
       (Some 3) None None 0).
Proof.
  destruct (@read_returns_level Mock MockTransport) as [_ H].
  exact (H (mkMock [] [[x00; x01]]) true (Some 1000) [] [] 3 None None 0
           ltac:(lia) eq_refl).
Defined.

(** X18 on the in-memory line: pin 5 on a device in binary mode and on a
    device that switches. *)
Lemma GPIO_init_succeeds_witness :
  (exists g, fst (GPIO_init (mock_port [] [[]; probe_reply]) (Some 5)) = Ok g
             /\ gpio_pin g = Some 5
             /\ caches g = (None, None, 0)
             /\ logger (base g) = [])
  /\ (exists g,
         fst (GPIO_init (SerialPort (mkSerial switching_device true (Some 1000)))
                (Some 5)) = Ok g
         /\ gpio_pin g = Some 5
         /\ caches g = (None, None, 0)
         /\ logger (base g) = []).
Proof.
  destruct (GPIO_init_succeeds (mkMock [] [[]; probe_reply]) true (Some 1000) 5)
    as [H1 _].
  destruct (GPIO_init_succeeds switching_device true (Some 1000) 5)
    as [_ H2].
  split.
  - eexists. unfold mock_port. rewrite (H1 (mock_binary_line [])).
    repeat split.
  - eexists. rewrite (H2 (mock_text_line _) (mock_binary_line [])).
    repeat split.
Defined.

